(** * Product reconciliation engine of [src/cpuhardware.py]

    Shallow embedding of [ProductMatcher] ([normalize_text],
    [calculate_spec_similarity], [calculate_price_similarity],
    [calculate_similarity_score], [find_best_match]) and of the
    [extract_specifications] rule loops of [src/cpuhardware.py] and
    [src/laptopexcel.py]; further, the price text of
    [AmazonCPUScraper.scrape_cpu_data], the [clean_text] functions of
    [src/laptopexcel.py] and [src/laptops.py], [extract_specifications] and
    [insert_laptops_to_db] of [src/laptops.py], and the file name built in
    [src/scrap.py].

    Modelling choices:
    - Python values that reach the matcher (rows of the dictionary cursor,
      the scraped-product dict, decoded JSON specs) are the type [pyval].
    - Raised exceptions are the left side of the error monad [M].
    - Python floats are [flt]: a finite value is an exact rational (the
      rounding of finite values is not modelled), and [float()] of a
      decimal literal overflows to [+inf] or underflows to [0.0] exactly at
      the binary64 bounds; [inf - inf], [inf / inf] are NaN as in IEEE 754.
    - A Python [str] of the matcher is a [String.string] whose characters are
      the first 256 code points of Unicode (Latin-1, one [ascii] each);
      [\d], [\w], [str.isspace] and [str.lower] are Python's on them.
    - Where the code handles non-ASCII text (Arabic-Indic digits, [str.split]
      on Unicode whitespace), text is a list of code points ([ustr]).
    - The [laptops] table of the MariaDB database is a list of rows; the
      name comparison of its [WHERE name = ?] query and the failures
      ([mariadb.Error]) of its [SELECT] and [INSERT] are parameters.
    - The external libraries (rapidfuzz's [token_set_ratio], [json.loads],
      Python's [repr] of containers, and [re.search]) are parameters of the
      sections below. *)

From Stdlib Require Import String Ascii List Bool ZArith QArith Qabs Qminmax Lia Lqa.
Import ListNotations.
#[local] Set Warnings "-register-all".
Open Scope string_scope.

(** ** Python floats *)

(** A Python [float]: finite (an exact rational), an infinity of the given
    sign ([true] is [+inf]) or NaN. *)
Inductive flt : Type :=
| Fin (q : Q)
| Inf (pos : bool)
| NaN.

(** [x < y] on rationals. *)
Definition Qlt_bool (x y : Q) : bool := negb (Qle_bool y x).

(** ** Python values *)

Inductive pyval : Type :=
| PNone
| PBool (b : bool)
| PInt (z : Z)
| PFloat (f : flt)
| PStr (s : string)
| PList (l : list pyval)
| PDict (d : list (string * pyval)).

(** Python truth value ([bool(v)]). *)
Definition truthy (v : pyval) : bool :=
  match v with
  | PNone => false
  | PBool b => b
  | PInt z => negb (Z.eqb z 0%Z)
  | PFloat (Fin q) => negb (Qeq_bool q 0)
  | PFloat _ => true
  | PStr s => negb (String.eqb s "")
  | PList l => negb (Nat.eqb (length l) 0%nat)
  | PDict d => negb (Nat.eqb (length d) 0%nat)
  end.

(** Exceptions the matcher can raise. *)
Inductive exn : Type :=
| KeyError | TypeError | ValueError | AttributeError
| JSONDecodeError | ZeroDivisionError | IndexError | DatabaseError.

(** The error monad: [inl e] is "raised [e]". *)
Definition M (A : Type) : Type := (exn + A)%type.
Definition ret {A} (a : A) : M A := inr a.
Definition raise {A} (e : exn) : M A := inl e.
Definition bind {A B} (m : M A) (k : A -> M B) : M B :=
  match m with inl e => inl e | inr a => k a end.
Notation "x <- m ;; k" := (bind m (fun x => k))
  (at level 61, m at next level, right associativity).

(** [d[k]]: lookup of the first binding, [KeyError] when absent. *)
Fixpoint dict_lookup (d : list (string * pyval)) (k : string) : option pyval :=
  match d with
  | [] => None
  | (k', v) :: d' => if String.eqb k k' then Some v else dict_lookup d' k
  end.

Definition dict_getitem (d : list (string * pyval)) (k : string) : M pyval :=
  match dict_lookup d k with Some v => ret v | None => raise KeyError end.

(** [d.get(k, default)]. *)
Definition dict_get (d : list (string * pyval)) (k : string) (default : pyval) : pyval :=
  match dict_lookup d k with Some v => v | None => default end.

(** [d[k] = v]: replaces in place, or appends a new key at the end. *)
Fixpoint dict_setitem (d : list (string * pyval)) (k : string) (v : pyval)
  : list (string * pyval) :=
  match d with
  | [] => [(k, v)]
  | (k', v') :: d' =>
      if String.eqb k k' then (k', v) :: d' else (k', v') :: dict_setitem d' k v
  end.

(** ** Characters and [str()] *)

Definition is_digit (c : ascii) : bool :=
  let n := nat_of_ascii c in ((48 <=? n) && (n <=? 57))%nat.
(** Upper-case letters, the characters [str.lower] changes (each by +32):
    A-Z, U+00C0-U+00D6 and U+00D8-U+00DE. *)
Definition is_upper (c : ascii) : bool :=
  let n := nat_of_ascii c in
  (((65 <=? n) && (n <=? 90)) || ((192 <=? n) && (n <=? 214))
   || ((216 <=? n) && (n <=? 222)))%nat.
(** Lower-case letters ([str.islower]): a-z, U+00AA, U+00B5, U+00BA,
    U+00DF-U+00F6 and U+00F8-U+00FF. *)
Definition is_lower (c : ascii) : bool :=
  let n := nat_of_ascii c in
  (((97 <=? n) && (n <=? 122)) || (n =? 170) || (n =? 181) || (n =? 186)
   || ((223 <=? n) && (n <=? 246)) || ((248 <=? n) && (n <=? 255)))%nat.
(** The numeric characters below U+0100 besides 0-9 ([str.isalnum] holds):
    U+00B2, U+00B3, U+00B9 and U+00BC-U+00BE. *)
Definition is_other_alnum (c : ascii) : bool :=
  let n := nat_of_ascii c in
  ((n =? 178) || (n =? 179) || (n =? 185) || ((188 <=? n) && (n <=? 190)))%nat.
(** [\w]: the [str.isalnum] characters and underscore. *)
Definition is_word (c : ascii) : bool :=
  is_digit c || is_upper c || is_lower c || is_other_alnum c || Ascii.eqb c "_"%char.
(** [str.isspace]: \t \n \x0b \x0c \r, \x1c-\x1f, space, \x85 and \xa0. *)
Definition is_space (c : ascii) : bool :=
  let n := nat_of_ascii c in
  ((n =? 32) || ((9 <=? n) && (n <=? 13)) || ((28 <=? n) && (n <=? 31))
   || (n =? 133) || (n =? 160))%nat.

Definition lower_char (c : ascii) : ascii :=
  if is_upper c then ascii_of_nat (nat_of_ascii c + 32)%nat else c.

(** [str.lower]. *)
Fixpoint lower (s : string) : string :=
  match s with
  | EmptyString => EmptyString
  | String c s' => String (lower_char c) (lower s')
  end.

Fixpoint lstrip (s : string) : string :=
  match s with
  | EmptyString => EmptyString
  | String c s' => if is_space c then lstrip s' else s
  end.

Fixpoint rstrip (s : string) : string :=
  match s with
  | EmptyString => EmptyString
  | String c s' =>
      let r := rstrip s' in
      if is_space c && String.eqb r "" then EmptyString else String c r
  end.

(** [str.strip()]. *)
Definition strip (s : string) : string := rstrip (lstrip s).

(** [re.sub(r'\W+', ' ', s)]: each maximal run of non-word characters
    becomes one space. [in_run] says the previous character was non-word. *)
Fixpoint sub_nonword_from (in_run : bool) (s : string) : string :=
  match s with
  | EmptyString => EmptyString
  | String c s' =>
      if is_word c then String c (sub_nonword_from false s')
      else if in_run then sub_nonword_from true s'
      else String " " (sub_nonword_from true s')
  end.
Definition sub_nonword (s : string) : string := sub_nonword_from false s.

Definition digit_char (n : N) : ascii := ascii_of_N (48 + n)%N.

Fixpoint N_digits (fuel : nat) (n : N) (acc : string) : string :=
  match fuel with
  | O => acc
  | S fuel' =>
      let acc' := String (digit_char (N.modulo n 10)%N) acc in
      let q := N.div n 10%N in
      if N.eqb q 0%N then acc' else N_digits fuel' q acc'
  end.

(** [str()] of a Python [int]. *)
Definition Z_to_decimal (z : Z) : string :=
  let digits := N_digits (S (N.to_nat (N.log2 (Z.abs_N z)))) (Z.abs_N z) "" in
  if Z.ltb z 0%Z then String "-" digits else digits.

Section Matcher.
(** Python's [repr] of a float, a list or a dict, left abstract. *)
Variable py_repr : pyval -> string.

(** [str(v)]. *)
Definition py_str (v : pyval) : string :=
  match v with
  | PNone => "None"
  | PBool true => "True"
  | PBool false => "False"
  | PInt z => Z_to_decimal z
  | PStr s => s
  | PFloat _ | PList _ | PDict _ => py_repr v
  end.

(** [ProductMatcher.normalize_text]. *)
Definition normalize_text (text : pyval) : string :=
  if negb (truthy text) then ""
  else sub_nonword (strip (lower (py_str text))).


(** *** [calculate_price_similarity] *)

(** [re.sub(r'[^\d.]', '', s)]: keep only digits and dots. *)
Fixpoint strip_price (s : string) : string :=
  match s with
  | EmptyString => EmptyString
  | String c s' =>
      if is_digit c || Ascii.eqb c "."%char then String c (strip_price s')
      else strip_price s'
  end.

(** Python's [float()] grammar restricted to strings of digits and dots
    (the only strings [strip_price] yields): digits with at most one dot
    and at least one digit. [num] is the digit string read so far as an
    integer, [frac] the number of digits after the dot, [nd] the number of
    digits. *)
Fixpoint parse_decimal_from (s : string) (seen_dot : bool) (num : Z) (frac nd : nat)
  : option Q :=
  match s with
  | EmptyString =>
      if Nat.eqb nd 0 then None
      else Some (num # Z.to_pos (Z.pow 10 (Z.of_nat frac)))
  | String c s' =>
      if is_digit c then
        parse_decimal_from s' seen_dot
          (num * 10 + Z.of_nat (nat_of_ascii c - 48))%Z
          (if seen_dot then S frac else frac) (S nd)
      else if Ascii.eqb c "."%char then
        if seen_dot then None else parse_decimal_from s' true num frac nd
      else None
  end.
Definition parse_decimal (s : string) : option Q := parse_decimal_from s false 0%Z 0 0.

(** Rounding of a non-negative decimal value to binary64, at the bounds:
    values from [2^1024 - 2^970] on round to [+inf], values up to
    [2^-1075] round to [0.0]. *)
Definition float_overflow_bound : Q := inject_Z (2 ^ 1024 - 2 ^ 970)%Z.
Definition float_underflow_bound : Q := 1 # Z.to_pos (2 ^ 1075)%Z.
Definition to_float (q : Q) : flt :=
  if Qle_bool float_overflow_bound q then Inf true
  else if Qle_bool q float_underflow_bound then Fin 0
  else Fin q.

(** [float(s)] on a stripped price string. *)
Definition py_float_of_str (s : string) : M flt :=
  match parse_decimal s with
  | Some q => ret (to_float q)
  | None => raise ValueError
  end.

Definition flt_truthy (f : flt) : bool :=
  match f with Fin q => negb (Qeq_bool q 0) | _ => true end.

(** IEEE subtraction, absolute value, division and multiplication. *)
Definition fsub (a b : flt) : flt :=
  match a, b with
  | Fin x, Fin y => Fin (x - y)
  | Inf p, Fin _ => Inf p
  | Fin _, Inf p => Inf (negb p)
  | Inf p, Inf p' => if Bool.eqb p p' then NaN else Inf p
  | _, _ => NaN
  end.

Definition fabs (a : flt) : flt :=
  match a with Fin x => Fin (Qabs x) | Inf _ => Inf true | NaN => NaN end.

(** [a / b]; Python raises [ZeroDivisionError] on a zero divisor. *)
Definition fdiv (a b : flt) : M flt :=
  match a, b with
  | _, Fin y => if Qeq_bool y 0 then raise ZeroDivisionError else
      match a with
      | Fin x => ret (Fin (x / y))
      | Inf p => ret (Inf (Bool.eqb p (Qlt_bool 0 y)))
      | NaN => ret NaN
      end
  | Fin _, Inf _ => ret (Fin 0)
  | _, _ => ret NaN
  end.

Definition fmul (a b : flt) : flt :=
  match a, b with
  | Fin x, Fin y => Fin (x * y)
  | Inf p, Fin y | Fin y, Inf p =>
      if Qeq_bool y 0 then NaN else Inf (Bool.eqb p (Qlt_bool 0 y))
  | Inf p, Inf p' => Inf (Bool.eqb p p')
  | _, _ => NaN
  end.

(** [x > 0]; comparisons with NaN are false. *)
Definition fgt0 (a : flt) : bool :=
  match a with Fin x => Qlt_bool 0 x | Inf p => p | NaN => false end.

(** [max(0, x)]: keeps the first argument unless the second is larger. *)
Definition py_max0 (a : flt) : flt := if fgt0 a then a else Fin 0.

Definition calculate_price_similarity_body (scraped_price db_price : pyval) : M flt :=
  s <- py_float_of_str (strip_price (py_str scraped_price)) ;;
  d <- py_float_of_str (strip_price (py_str db_price)) ;;
  r <- fdiv (fabs (fsub s d)) (if flt_truthy d then d else Fin 1) ;;
  let price_difference_percentage := fmul r (Fin 100) in
  ret (py_max0 (fsub (Fin 100) price_difference_percentage)).

(** [ProductMatcher.calculate_price_similarity]: [ValueError] and
    [TypeError] are caught and give [0]. *)
Definition calculate_price_similarity (scraped_price db_price : pyval) : M flt :=
  match calculate_price_similarity_body scraped_price db_price with
  | inl ValueError | inl TypeError => ret (Fin 0)
  | r => r
  end.

(** *** [calculate_spec_similarity] *)

(** rapidfuzz's [fuzz.token_set_ratio]. *)
Variable token_set_ratio : string -> string -> Q.

(** [d.items()]: [AttributeError] on anything but a dict. *)
Definition dict_items (v : pyval) : M (list (string * pyval)) :=
  match v with PDict d => ret d | _ => raise AttributeError end.

(** [max(a, b)]: keeps [a] unless [b] is larger. *)
Definition py_max (a b : Q) : Q := if Qlt_bool a b then b else a.

(** The inner loop over [db_specs.items()] for one scraped attribute. *)
Definition best_match_score (key : string) (scraped_value : pyval)
  (db_items : list (string * pyval)) : Q :=
  let normalized_key := normalize_text (PStr key) in
  let normalized_scraped_value := normalize_text scraped_value in
  fold_left (fun best_match_score '(db_key, db_value) =>
      let normalized_db_key := normalize_text (PStr db_key) in
      let normalized_db_value := normalize_text db_value in
      let key_similarity := token_set_ratio normalized_key normalized_db_key in
      if Qlt_bool 80 key_similarity then
        py_max best_match_score
          (token_set_ratio normalized_scraped_value normalized_db_value)
      else best_match_score)
    db_items 0.

(** The outer loop: one entry of [match_scores] per scraped attribute. *)
Fixpoint match_scores_of (items : list (string * pyval)) (db_specs : pyval)
  : M (list Q) :=
  match items with
  | [] => ret []
  | (key, scraped_value) :: items' =>
      db_items <- dict_items db_specs ;;
      rest <- match_scores_of items' db_specs ;;
      ret (best_match_score key scraped_value db_items :: rest)
  end.

Definition Qsum (l : list Q) : Q := fold_left Qplus l 0.

(** [ProductMatcher.calculate_spec_similarity]. *)
Definition calculate_spec_similarity (scraped_specs db_specs : pyval) : M Q :=
  if negb (truthy scraped_specs) || negb (truthy db_specs) then ret 0 else
  items <- dict_items scraped_specs ;;
  match_scores <- match_scores_of items db_specs ;;
  ret (match match_scores with
       | [] => 0
       | _ => Qsum match_scores / inject_Z (Z.of_nat (length match_scores))
       end).

(** *** [calculate_similarity_score] *)

(** [json.loads]: [None] is a [JSONDecodeError]. *)
Variable json_loads : string -> option pyval.

Definition py_json_loads (v : pyval) : M pyval :=
  match v with
  | PStr s => match json_loads s with Some j => ret j | None => raise JSONDecodeError end
  | _ => raise TypeError
  end.

(** A float used as a number; every price similarity is finite
    ([calculate_price_similarity_finite]). *)
Definition flt_to_Q (f : flt) : Q := match f with Fin q => q | _ => 0 end.

(** The weighted sum [total_score]. *)
Definition total_score (name_similarity spec_similarity price_similarity : Q) : Q :=
  name_similarity * (5 # 10) + spec_similarity * (3 # 10) + price_similarity * (2 # 10).

(** A row of the dictionary cursor, and the scraped product dict. *)
Definition row := list (string * pyval).

(** [ProductMatcher.calculate_similarity_score]. *)
Definition calculate_similarity_score (scraped_product db_product : row) : M Q :=
  scraped_name_raw <- dict_getitem scraped_product "name" ;;
  db_name_raw <- dict_getitem db_product "name" ;;
  let scraped_name := normalize_text scraped_name_raw in
  let db_name := normalize_text db_name_raw in
  let name_similarity := token_set_ratio scraped_name db_name in
  let scraped_specs := dict_get scraped_product "specs" (PDict []) in
  db_specs <- (if truthy (dict_get db_product "specs" PNone)
               then py_json_loads (dict_get db_product "specs" (PStr "{}"))
               else ret (PDict [])) ;;
  spec_similarity <- calculate_spec_similarity scraped_specs db_specs ;;
  price_similarity <- calculate_price_similarity
                        (dict_get scraped_product "price" PNone)
                        (dict_get db_product "price" PNone) ;;
  ret (total_score name_similarity spec_similarity (flt_to_Q price_similarity)).

(** *** [find_best_match] *)

(** The loop collecting [matches] with score at or above the threshold. *)
Fixpoint collect_matches (scraped_product : row) (all_products : list row)
  (similarity_threshold : Q) : M (list (row * Q)) :=
  match all_products with
  | [] => ret []
  | db_product :: rest =>
      similarity_score <- calculate_similarity_score scraped_product db_product ;;
      tail <- collect_matches scraped_product rest similarity_threshold ;;
      ret (if Qle_bool similarity_threshold similarity_score
           then (db_product, similarity_score) :: tail else tail)
  end.

(** [matches.sort(key=lambda x: x['score'], reverse=True)]: a stable sort
    by descending score (equal scores keep their order), as insertion
    sort: [m] goes in front of the first element with a smaller score. *)
Fixpoint insert_desc (m : row * Q) (l : list (row * Q)) : list (row * Q) :=
  match l with
  | [] => [m]
  | m' :: l' => if Qlt_bool (snd m') (snd m) then m :: m' :: l' else m' :: insert_desc m l'
  end.
Definition sort_desc (l : list (row * Q)) : list (row * Q) :=
  fold_left (fun acc m => insert_desc m acc) l [].

(** The body of the [try] block; [all_products] is the result of
    [cursor.execute]/[fetchall] (a [DatabaseError] when the read fails). *)
Definition find_best_match_body (scraped_product : row) (all_products : M (list row))
  (similarity_threshold : Q) : M (option row) :=
  products <- all_products ;;
  matches <- collect_matches scraped_product products similarity_threshold ;;
  match sort_desc matches with
  | [] => ret None
  | (best_match, score) :: _ =>
      ret (Some (dict_setitem best_match "similarity_score" (PFloat (Fin score))))
  end.

(** [ProductMatcher.find_best_match]: [except Exception] returns [None]. *)
Definition find_best_match (scraped_product : row) (all_products : M (list row))
  (similarity_threshold : Q) : option row :=
  match find_best_match_body scraped_product all_products similarity_threshold with
  | inr r => r
  | inl _ => None
  end.

End Matcher.

(** ** Specification extractors *)

(** Number of capture groups of a pattern: the unescaped [(] not followed
    by [?]. *)
Fixpoint count_groups (pattern : string) : nat :=
  match pattern with
  | EmptyString => 0
  | String "\"%char (String _ rest) => count_groups rest
  | String "("%char (String "?"%char rest) => count_groups rest
  | String "("%char rest => S (count_groups rest)
  | String _ rest => count_groups rest
  end.

Section Extractor.
(** [re.search(pattern, description, re.IGNORECASE)]: the groups of the
    first match, or [None]. *)
Variable re_search : string -> string -> option (list string).

(** The rule loop shared by the extractors: [specs = {}], then for each
    [(pattern, key)], when the pattern matches, [specs[key] = value]. *)
Definition run_spec_patterns (value_of : list string -> M string)
  (spec_patterns : list (string * string)) (description : string) : M row :=
  fold_left (fun acc '(pattern, key) =>
      specs <- acc ;;
      match re_search pattern description with
      | Some groups => v <- value_of groups ;; ret (dict_setitem specs key (PStr v))
      | None => ret specs
      end)
    spec_patterns (ret []).

(** [match.group(1)]. *)
Definition group1 (groups : list string) : M string :=
  match groups with g :: _ => ret g | [] => raise IndexError end.

(** [' '.join(match.groups())]. *)
Definition join_groups (groups : list string) : M string :=
  ret (String.concat " " groups).

Definition cpu_spec_patterns : list (string * string) :=
  [ ("(\d+)\s*Cores?", "Cores");
    ("(\d+)\s*Threads?", "Threads");
    ("(\d+(?:\.\d+)?)\s*GHz\s*Base", "Base Clock");
    ("(\d+(?:\.\d+)?)\s*GHz\s*Boost", "Boost Clock");
    ("(Ryzen\s*\d+|Core\s*i\d+)", "Series") ].

(** [AmazonCPUScraper.extract_specifications] ([src/cpuhardware.py]). *)
Definition extract_specifications_cpu (description : string) : M row :=
  run_spec_patterns group1 cpu_spec_patterns description.

Definition laptop_spec_patterns : list (string * string) :=
  [ ("(\d+)\s*جيجابايت\s*(?:رام|ذاكرة)", "RAM");
    ("(\d+)\s*جيجابايت\s*SSD", "SSD");
    ("(\d+)\s*تيرابايت\s*(?:قرص صلب|HDD)", "HDD");
    ("(إنتل|Intel|AMD)\s+(?:كور|Core|رايزن|Ryzen)\s*(\w+)", "Processor");
    ("(\d+(?:\.\d+)?)\s*(?:بوصة|inch)", "Screen Size");
    ("(ويندوز|Windows|لينكس|Linux|ماك\s*أو\s*إس|MacOS)", "Operating System") ].

(** [LaptopScraper.extract_specifications] ([src/laptopexcel.py]). *)
Definition extract_specifications_laptop (description : string) : M row :=
  run_spec_patterns join_groups laptop_spec_patterns description.

End Extractor.

(** ** Auxiliary notions for the properties *)





(** A float that is [>= 0] or [+inf] or NaN. *)
Definition nonneg_flt (f : flt) : Prop :=
  match f with Fin q => 0 <= q | Inf p => p = true | NaN => True end.

(** The price-similarity formula in the words of the claim:
    [100 - |scraped - catalog| / max(catalog, 1) * 100], floored at 0. *)
Definition price_similarity_as_specified (scraped catalog : Q) : Q :=
  Qmax 0 (100 - Qabs (scraped - catalog) / Qmax catalog 1 * 100).

(** A run of [n] nines. *)
Definition nines (n : nat) : string := string_of_list_ascii (repeat "9"%char n).

(** The score of one scraped attribute in the words of the claim: the
    largest value similarity over the catalog labels whose similarity with
    the scraped label exceeds 80, and 0 when there is none. *)
Definition attribute_score_as_specified (py_repr : pyval -> string)
  (token_set_ratio : string -> string -> Q) (key : string) (value : pyval)
  (db_specs : list (string * pyval)) : Q :=
  fold_right Qmax 0
    (map (fun '(_, db_value) =>
            token_set_ratio (normalize_text py_repr value) (normalize_text py_repr db_value))
       (filter (fun '(db_key, _) =>
                  Qlt_bool 80 (token_set_ratio (normalize_text py_repr (PStr key))
                                 (normalize_text py_repr (PStr db_key))))
          db_specs)).

(** The spec similarity in the words of the claim: 0 when either map is
    empty, else the average of the attribute scores over the scraped map. *)
Definition spec_similarity_as_specified (py_repr : pyval -> string)
  (token_set_ratio : string -> string -> Q)
  (scraped_specs db_specs : list (string * pyval)) : Q :=
  match scraped_specs, db_specs with
  | [], _ | _, [] => 0
  | _, _ =>
      Qsum (map (fun '(key, value) =>
                   attribute_score_as_specified py_repr token_set_ratio key value db_specs)
                scraped_specs)
      / inject_Z (Z.of_nat (length scraped_specs))
  end.

(** A list whose first element has the largest score. *)
Definition head_max (l : list (row * Q)) : Prop :=
  match l with [] => True | h :: t => forall y, In y t -> snd y <= snd h end.

(** A concrete run: a scraped product and a catalog row; [json.loads]
    decodes only ["{}"] and every token-set ratio is 100. *)
Definition c1_token_set_ratio (_ _ : string) : Q := 100.
Definition c1_json_loads (s : string) : option pyval :=
  if String.eqb s "{}" then Some (PDict []) else None.
Definition c1_scraped : row :=
  [("name", PStr "AMD Ryzen 9"); ("price", PStr "$289.99");
   ("specs", PDict [("Cores", PStr "12")])].
Definition c1_good_row : row :=
  [("name", PStr "Ryzen 9 5900X"); ("price", PStr "289.99")].

(** A scraped CPU with empty specs, the same CPU in the catalog with [NULL]
    specs, and a catalog row whose serialized specs are not valid JSON. *)
Definition fault_scraped : row :=
  [("name", PStr "Ryzen 9 5900X"); ("price", PStr "$289.99"); ("specs", PDict [])].
Definition fault_good_row : row :=
  [("name", PStr "Ryzen 9 5900X"); ("price", PStr "289.99"); ("specs", PNone)].
Definition fault_bad_row : row :=
  [("name", PStr "Ryzen 7 5800X"); ("price", PStr "199.99"); ("specs", PStr "{cores: 8")].

(** A token-set ratio that is 100 on two equal texts, as rapidfuzz's is on
    equal non-empty texts; the runs below compare equal names only. *)
Definition exact_match_ratio (a b : string) : Q := if String.eqb a b then 100 else 0.

(** A catalog listing the scraped CPU four times at different prices, the
    second and third at the same price. *)
Definition cpu_row (price link : string) : row :=
  [("name", PStr "Ryzen 9 5900X"); ("price", PStr price); ("link", PStr link); ("specs", PNone)].
Definition tie_catalog : list row :=
  [cpu_row "349.99" "https://shop.example/1"; cpu_row "289.99" "https://shop.example/2";
   cpu_row "289.99" "https://shop.example/3"; cpu_row "299.99" "https://shop.example/4"].

(** A [re.search] that finds ["8"] for the [Cores] rule only. *)
Definition c6_re_search (pattern _ : string) : option (list string) :=
  if String.eqb pattern "(\d+)\s*Cores?" then Some ["8"] else None.

(** ** Further code of the scrapers *)

(** *** Price text of [AmazonCPUScraper.scrape_cpu_data] *)

(** The [price] of a scraped CPU, from the texts of the [a-price-whole]
    and [a-price-fraction] elements ([None] when the element is absent; a
    found [Tag] is always true). *)
Definition scraped_cpu_price (price_whole price_fraction : option string) : string :=
  match price_whole, price_fraction with
  | Some whole, Some fraction => strip whole ++ "." ++ strip fraction
  | Some whole, None => strip whole
  | None, _ => "N/A"
  end.

(** *** Unicode text of [LaptopScraper.clean_text] and of [src/scrap.py] *)

(** A Python [str] as its list of code points. *)
Definition ustr := list Z.

Definition ustr_of_string (s : string) : ustr :=
  map (fun c => Z.of_nat (nat_of_ascii c)) (list_ascii_of_string s).

(** [str.isspace] of one code point: \t \n \x0b \x0c \r, \x1c-\x1f, space,
    U+0085, U+00A0, U+1680, U+2000-U+200A, U+2028, U+2029, U+202F, U+205F
    and U+3000. *)
Definition py_isspace (c : Z) : bool :=
  ((9 <=? c) && (c <=? 13) || (28 <=? c) && (c <=? 32) || (c =? 133) || (c =? 160)
   || (c =? 5760) || (8192 <=? c) && (c <=? 8202) || (c =? 8232) || (c =? 8233)
   || (c =? 8239) || (c =? 8287) || (c =? 12288))%Z.

(** [str.split()]: the maximal runs of non-whitespace code points; [cur]
    is the current run, reversed. *)
Fixpoint split_ws_aux (s cur : ustr) : list ustr :=
  match s with
  | [] => match cur with [] => [] | _ => [rev cur] end
  | c :: s' =>
      if py_isspace c then
        match cur with
        | [] => split_ws_aux s' []
        | _ => rev cur :: split_ws_aux s' []
        end
      else split_ws_aux s' (c :: cur)
  end.
Definition py_split (s : ustr) : list ustr := split_ws_aux s [].

(** [sep.join(parts)]. *)
Fixpoint py_join (sep : ustr) (parts : list ustr) : ustr :=
  match parts with
  | [] => []
  | [x] => x
  | x :: parts' => (x ++ sep ++ py_join sep parts')%list
  end.

Fixpoint starts_with (prefix s : ustr) : bool :=
  match prefix, s with
  | [], _ => true
  | _, [] => false
  | a :: prefix', b :: s' => Z.eqb a b && starts_with prefix' s'
  end.

(** [str.replace(old, new)] for a non-empty [old]: left to right, without
    overlaps; [fuel] bounds the number of steps. *)
Fixpoint replace_fuel (fuel : nat) (old new s : ustr) : ustr :=
  match fuel with
  | O => s
  | S fuel' =>
      match s with
      | [] => []
      | c :: s' =>
          if starts_with old s then (new ++ replace_fuel fuel' old new (skipn (length old) s))%list
          else c :: replace_fuel fuel' old new s'
      end
  end.

(** [s.replace(old, new)]; an empty [old] inserts [new] around every code
    point. *)
Definition py_replace (old new s : ustr) : ustr :=
  match old with
  | [] => (new ++ flat_map (fun c => c :: new) s)%list
  | _ => replace_fuel (length s) old new s
  end.

(** The [arabic_numerals] dict of [src/laptopexcel.py], in insertion order:
    U+0660..U+0669 to '0'..'9'. *)
Definition arabic_numerals : list (ustr * ustr) :=
  [([1632%Z], [48%Z]); ([1633%Z], [49%Z]); ([1634%Z], [50%Z]); ([1635%Z], [51%Z]);
   ([1636%Z], [52%Z]); ([1637%Z], [53%Z]); ([1638%Z], [54%Z]); ([1639%Z], [55%Z]);
   ([1640%Z], [56%Z]); ([1641%Z], [57%Z])].

(** [LaptopScraper.clean_text] of [src/laptopexcel.py]. *)
Definition clean_text_laptopexcel (text : ustr) : ustr :=
  match text with
  | [] => []
  | _ =>
      let text := py_join [32%Z] (py_split text) in
      fold_left (fun text '(arabic_num, western_num) => py_replace arabic_num western_num text)
        arabic_numerals text
  end.

(** [LaptopScraper.clean_text] of [src/laptops.py]: the chain of ten
    [replace] calls. *)
Definition clean_text_laptops (text : ustr) : ustr :=
  match text with
  | [] => []
  | _ =>
      let text := py_join [32%Z] (py_split text) in
      py_replace [1641%Z] [57%Z] (py_replace [1640%Z] [56%Z] (py_replace [1639%Z] [55%Z]
        (py_replace [1638%Z] [54%Z] (py_replace [1637%Z] [53%Z] (py_replace [1636%Z] [52%Z]
        (py_replace [1635%Z] [51%Z] (py_replace [1634%Z] [50%Z] (py_replace [1633%Z] [49%Z]
        (py_replace [1632%Z] [48%Z] text)))))))))
  end.

(** [sanitized_date = date.replace("/", "-")] of [src/scrap.py], and the
    name of the CSV file it writes. *)
Definition sanitized_date (date : ustr) : ustr :=
  py_replace (ustr_of_string "/") (ustr_of_string "-") date.

Definition csv_file_name (date : ustr) : ustr :=
  (ustr_of_string "matches_" ++ sanitized_date date ++ ustr_of_string ".csv")%list.

(** *** [LaptopScraper.extract_specifications] of [src/laptops.py] *)

Section LaptopsExtractor.
Variable re_search : string -> string -> option (list string).

Definition laptops_spec_patterns : list (string * string) :=
  [ ("(\d+)\s*جيجابايت\s*ذاكرة", "RAM");
    ("(\d+)\s*جيجابايت\s*SSD", "SSD");
    ("(\d+)\s*تيرابايت\s*HDD", "HDD");
    ("(إنتل|AMD)\s+(كور|رايزن)\s*(\w+)", "Processor");
    ("(\d+(?:\.\d+)?)\s*بوصة", "Screen Size");
    ("(ويندوز|لينكس|ماك\s*أو\s*إس)", "Operating System") ].

Definition laptops_english_patterns : list (string * string) :=
  [ ("(\d+)\s*GB\s*RAM", "RAM");
    ("(\d+)\s*GB\s*SSD", "SSD");
    ("(\d+)\s*TB\s*HDD", "HDD");
    ("(Intel|AMD)\s+(Core|Ryzen)\s*(\w+)", "Processor");
    ("(\d+(?:\.\d+)?)\s*inch", "Screen Size");
    ("(Windows|Linux|MacOS)", "Operating System") ].

(** A rule loop that stops at the first matching rule ([break]), storing
    [match.group(1)] under its label. *)
Fixpoint first_rule_loop (specs : row) (spec_patterns : list (string * string))
  (description : string) : M row :=
  match spec_patterns with
  | [] => ret specs
  | (pattern, key) :: rest =>
      match re_search pattern description with
      | Some groups => v <- group1 groups ;; ret (dict_setitem specs key (PStr v))
      | None => first_rule_loop specs rest description
      end
  end.

Definition extract_specifications_laptops (description : string) : M row :=
  specs <- first_rule_loop [] laptops_spec_patterns description ;;
  if negb (truthy (PDict specs))
  then first_rule_loop specs laptops_english_patterns description
  else ret specs.

End LaptopsExtractor.

(** *** [LaptopScraper.insert_laptops_to_db] of [src/laptops.py] *)

(** A row of the [laptops] table. *)
Record db_row : Type := mk_db_row {
  db_name : pyval; db_price : pyval; db_link : pyval; db_specs : string;
  db_description : pyval }.

Section LaptopsDB.
(** [json.dumps(..., ensure_ascii=False)]. *)
Variable json_dumps : pyval -> string.
(** The comparison [name = ?] under the collation of the table. *)
Variable name_eq : pyval -> pyval -> bool.
(** Whether the count query [SELECT COUNT] for a name raises
    [mariadb.Error]. *)
Variable select_fails : list db_row -> pyval -> bool.
(** Whether the [INSERT] of a row into the table raises [mariadb.Error]
    (the statement then inserts nothing); the [commit] is taken to
    succeed. *)
Variable insert_fails : list db_row -> db_row -> bool.

(** The count query on [laptops] for rows whose name is [name = ?]. *)
Definition count_name (table : list db_row) (name : pyval) : nat :=
  length (filter (fun r => name_eq (db_name r) name) table).

(** The body of the loop for one laptop: a [KeyError] escapes, a
    [mariadb.Error] of the [SELECT] or of the [INSERT] is caught and leaves
    the table as it was. *)
Definition insert_laptop (table : list db_row) (laptop : row) : M (list db_row) :=
  name <- dict_getitem laptop "name" ;;
  if select_fails table name then ret table else
  if Nat.ltb 0 (count_name table name) then ret table else
  name' <- dict_getitem laptop "name" ;;
  price <- dict_getitem laptop "price" ;;
  link <- dict_getitem laptop "link" ;;
  specs <- dict_getitem laptop "specs" ;;
  description <- dict_getitem laptop "description" ;;
  let r := mk_db_row name' price link (json_dumps specs) description in
  if insert_fails table r then ret table else ret (table ++ [r])%list.

(** [LaptopScraper.insert_laptops_to_db]: the final table, and the
    exception that escaped the loop, if any. *)
Fixpoint insert_laptops_to_db (table : list db_row) (laptops : list row)
  : list db_row * option exn :=
  match laptops with
  | [] => (table, None)
  | laptop :: rest =>
      match insert_laptop table laptop with
      | inl e => (table, Some e)
      | inr table' => insert_laptops_to_db table' rest
      end
  end.

End LaptopsDB.

(** *** Auxiliary notions for the further properties *)

(** An Arabic-Indic digit U+0660..U+0669, and its ASCII digit. *)
Definition is_arabic_digit (c : Z) : bool := ((1632 <=? c) && (c <=? 1641))%Z.
Definition arabic_to_ascii (c : Z) : Z := if is_arabic_digit c then (c - 1584)%Z else c.

(** No row's name is found by [name = ?] from an earlier row's name. *)
Definition no_dup_names (name_eq : pyval -> pyval -> bool) (table : list db_row) : Prop :=
  forall pre r post r', table = (pre ++ r :: post)%list -> In r' pre ->
    name_eq (db_name r') (db_name r) = false.

Fixpoint count_dots (s : string) : nat :=
  match s with
  | EmptyString => 0
  | String c s' => (if Ascii.eqb c "."%char then 1 else 0) + count_dots s'
  end.

(** Non-whitespace characters, and the words [str.split()] returns. *)
Definition nonspace (c : Z) : bool := negb (py_isspace c).

Definition word_ok (w : ustr) : Prop := w <> [] /\ Forall (fun c => py_isspace c = false) w.

(** [h] occurs in [l], after entries of smaller score only and before
    entries of at most its score. *)
Definition first_max (l : list (row * Q)) (h : row * Q) : Prop :=
  exists pre post, l = (pre ++ h :: post)%list
    /\ (forall y, In y pre -> snd y < snd h) /\ (forall y, In y post -> snd y <= snd h).

(** Names compared as their [str()] text, and sample laptops. *)
Definition never_fails (_ : list db_row) (_ : db_row) : bool := false.
Definition select_never_fails (_ : list db_row) (_ : pyval) : bool := false.
Definition dumps_stub (_ : pyval) : string := "{}".
Definition text_name_eq (a b : pyval) : bool :=
  String.eqb (py_str (fun _ => "") a) (py_str (fun _ => "") b).
Definition sample_laptop : row :=
  [("name", PStr "Dell XPS 13"); ("price", PStr "45,999 EGP");
   ("link", PStr "https://2b.com.eg/dell-xps-13"); ("specs", PDict [("RAM", PStr "16")]);
   ("description", PStr "16 GB RAM")].
Definition sample_laptop_no_name : row :=
  [("price", PStr "19,999 EGP"); ("link", PStr "https://2b.com.eg/hp-250")].
Definition sample_re_search (pattern _ : string) : option (list string) :=
  if String.eqb pattern "(\d+)\s*GB\s*RAM" then Some ["16"] else None.

(** ** Properties of [normalize_text] *)








(** ** Properties of price parsing and [calculate_price_similarity] *)

Lemma Qlt_bool_iff (x y : Q) : Qlt_bool x y = true <-> x < y.
Proof.
  unfold Qlt_bool. rewrite negb_true_iff. split.
  - intros H. apply Qnot_le_lt. intros H'. apply Qle_bool_iff in H'. congruence.
  - intros H. destruct (Qle_bool y x) eqn:E; [|reflexivity].
    apply Qle_bool_iff in E. exfalso. exact (Qlt_not_le _ _ H E).
Qed.

Lemma Qlt_bool_false (x y : Q) : Qlt_bool x y = false -> y <= x.
Proof.
  unfold Qlt_bool. rewrite negb_false_iff. apply Qle_bool_iff.
Qed.

Lemma parse_decimal_from_nonneg (s : string) :
  forall seen_dot num frac nd q,
  (0 <= num)%Z -> parse_decimal_from s seen_dot num frac nd = Some q -> 0 <= q.
Proof.
  induction s as [|c s IH]; intros seen_dot num frac nd q Hn H; simpl in H.
  - destruct (Nat.eqb nd 0); [discriminate|]. injection H as <-.
    unfold Qle; simpl. lia.
  - destruct (is_digit c).
    + eapply IH; [|exact H]. lia.
    + destruct (Ascii.eqb c "."%char); [|discriminate].
      destruct seen_dot; [discriminate|]. eapply IH; eassumption.
Qed.

Lemma parse_decimal_nonneg (s : string) (q : Q) : parse_decimal s = Some q -> 0 <= q.
Proof. apply parse_decimal_from_nonneg. lia. Qed.

Lemma to_float_nonneg (q : Q) : 0 <= q -> nonneg_flt (to_float q).
Proof.
  intros H. unfold to_float.
  destruct (Qle_bool float_overflow_bound q); [reflexivity|].
  destruct (Qle_bool q float_underflow_bound); simpl; [apply Qle_refl | exact H].
Qed.

Lemma py_float_of_str_cases (s : string) :
  py_float_of_str s = inl ValueError
  \/ exists q, parse_decimal s = Some q /\ py_float_of_str s = inr (to_float q) /\ 0 <= q.
Proof.
  unfold py_float_of_str. destruct (parse_decimal s) as [q|] eqn:E; [|left; reflexivity].
  right. exists q. split; [reflexivity|]. split; [reflexivity|].
  exact (parse_decimal_nonneg _ _ E).
Qed.

Lemma fsub_fin_nonneg_abs (s d : flt) :
  nonneg_flt s -> nonneg_flt d -> nonneg_flt (fabs (fsub s d)).
Proof.
  destruct s, d; cbv [fabs fsub nonneg_flt]; intros; try exact I; try reflexivity.
  - apply Qabs_nonneg.
  - destruct (Bool.eqb pos pos0); reflexivity.
Qed.

Lemma fdiv_nonneg (a b : flt) :
  nonneg_flt a -> nonneg_flt b -> flt_truthy b = true ->
  exists r, fdiv a b = inr r /\ nonneg_flt r.
Proof.
  intros Ha Hb Ht. destruct b as [y|p|]; cbv [fdiv nonneg_flt flt_truthy] in *.
  - apply negb_true_iff in Ht. rewrite Ht.
    assert (Hy : 0 < y).
    { apply Qnot_le_lt. intros Hle. apply Qeq_bool_neq in Ht. apply Ht.
      apply Qle_antisym; assumption. }
    destruct a as [x|p|]; cbv [nonneg_flt] in *.
    + eexists; split; [reflexivity|]. cbv [nonneg_flt Qdiv].
      apply Qmult_le_0_compat; [exact Ha|]. apply Qinv_le_0_compat, Qlt_le_weak, Hy.
    + subst p. eexists; split; [reflexivity|]. cbv [nonneg_flt].
      assert (Qlt_bool 0 y = true) as -> by (apply Qlt_bool_iff; exact Hy). reflexivity.
    + eexists; split; [reflexivity|exact I].
  - subst p. destruct a; (eexists; split; [reflexivity|]); cbv [nonneg_flt]; try exact I; apply Qle_refl.
  - destruct a; (eexists; split; [reflexivity|]); exact I.
Qed.

Lemma fmul_100_nonneg (a : flt) : nonneg_flt a -> nonneg_flt (fmul a (Fin 100)).
Proof.
  destruct a as [x|p|]; cbv [fmul nonneg_flt]; intros H; [|subst p; reflexivity|exact I].
  apply Qmult_le_0_compat; [exact H|]. unfold Qle; simpl; lia.
Qed.

Lemma py_max0_hundred_minus (p : flt) :
  nonneg_flt p -> exists z, py_max0 (fsub (Fin 100) p) = Fin z /\ 0 <= z <= 100.
Proof.
  unfold py_max0. destruct p as [x|b|]; cbv [fsub fgt0 nonneg_flt]; intros H.
  - destruct (Qlt_bool 0 (100 - x)) eqn:E.
    + exists (100 - x). split; [reflexivity|]. apply Qlt_bool_iff in E. split; lra.
    + exists 0. split; [reflexivity|]. split; lra.
  - subst b. cbv [negb fgt0]. exists 0. split; [reflexivity|]. split; lra.
  - exists 0. split; [reflexivity|]. split; lra.
Qed.

(** The price similarity never raises and is a finite float in [0, 100]. *)
Lemma calculate_price_similarity_finite (py_repr : pyval -> string) (sp dp : pyval) :
  exists z, calculate_price_similarity py_repr sp dp = inr (Fin z) /\ 0 <= z <= 100.
Proof.
  unfold calculate_price_similarity, calculate_price_similarity_body.
  destruct (py_float_of_str_cases (strip_price (py_str py_repr sp)))
    as [Hs | [qs [_ [Hs Hqs]]]]; rewrite Hs; cbv [bind ret raise].
  { exists 0. split; [reflexivity|]. split; lra. }
  destruct (py_float_of_str_cases (strip_price (py_str py_repr dp)))
    as [Hd | [qd [_ [Hd Hqd]]]]; rewrite Hd; cbv [bind ret raise].
  { exists 0. split; [reflexivity|]. split; lra. }
  pose proof (to_float_nonneg _ Hqs) as Ns. pose proof (to_float_nonneg _ Hqd) as Nd.
  destruct (fdiv_nonneg (fabs (fsub (to_float qs) (to_float qd)))
              (if flt_truthy (to_float qd) then to_float qd else Fin 1)) as [r [Hr Nr]].
  - apply fsub_fin_nonneg_abs; assumption.
  - destruct (flt_truthy (to_float qd)); [exact Nd|]. cbv [nonneg_flt]. lra.
  - destruct (flt_truthy (to_float qd)) eqn:E; [exact E|reflexivity].
  - rewrite Hr. cbv [bind ret].
    destruct (py_max0_hundred_minus _ (fmul_100_nonneg _ Nr)) as [z [Hz Bz]].
    exists z. rewrite Hz. split; [reflexivity|exact Bz].
Qed.

(** The price similarity of two finite parsed prices [s] and [c]. *)
Lemma price_similarity_of_finite (py_repr : pyval -> string) (sp dp : pyval) (s c : Q) :
  py_float_of_str (strip_price (py_str py_repr sp)) = inr (Fin s) ->
  py_float_of_str (strip_price (py_str py_repr dp)) = inr (Fin c) ->
  exists z, calculate_price_similarity py_repr sp dp = inr (Fin z)
    /\ z == Qmax 0 (100 - Qabs (s - c) / (if Qeq_bool c 0 then 1 else c) * 100).
Proof.
  intros Hs Hd.
  unfold calculate_price_similarity, calculate_price_similarity_body.
  rewrite Hs, Hd. cbv [bind ret flt_truthy fsub fabs].
  assert (Hw : exists r, fdiv (Fin (Qabs (s - c)))
                   (if negb (Qeq_bool c 0) then Fin c else Fin 1) = inr (Fin r)
                 /\ r = Qabs (s - c) / (if Qeq_bool c 0 then 1 else c)).
  { destruct (Qeq_bool c 0) eqn:E; cbv [negb fdiv].
    - replace (Qeq_bool 1 0) with false by reflexivity.
      eexists; split; reflexivity.
    - rewrite E. eexists; split; reflexivity. }
  destruct Hw as [r [Hr Hrw]]. rewrite Hr, <- Hrw. cbv [fmul fsub py_max0 fgt0].
  destruct (Qlt_bool 0 (100 - r * 100)) eqn:Ew.
  - eexists. split; [reflexivity|]. apply Qlt_bool_iff in Ew.
    symmetry. apply Q.max_r. lra.
  - exists 0. split; [reflexivity|]. apply Qlt_bool_false in Ew.
    symmetry. apply Q.max_l. exact Ew.
Qed.

(** C3 (counterexample): for a catalog price between 0 and 1 the code
    divides by the catalog price itself, not by [max(catalog, 1)]: the
    prices ["1"] and ["0.5"] give similarity 0, the stated formula 50. *)
Lemma price_similarity_C3_small_catalog_price :
  parse_decimal (strip_price "1") = Some 1
  /\ parse_decimal (strip_price "0.5") = Some (5 # 10)
  /\ calculate_price_similarity (fun _ => "") (PStr "1") (PStr "0.5") = inr (Fin 0)
  /\ price_similarity_as_specified 1 (5 # 10) == 50.
Proof. split; [reflexivity|]. split; [reflexivity|]. split; reflexivity. Qed.

(** C3 (amended): after stripping every character but digits and dots,
    when both prices parse to finite floats [s] and [c], the price
    similarity is [100 - |s - c| / d * 100] floored at 0, with [d = c], or
    [d = 1] when [c] is 0; when either price fails to parse the similarity
    is 0; and no error is ever raised. *)
Theorem calculate_price_similarity_spec (py_repr : pyval -> string)
  (scraped_price db_price : string) :
  ((parse_decimal (strip_price scraped_price) = None
    \/ parse_decimal (strip_price db_price) = None) ->
   calculate_price_similarity py_repr (PStr scraped_price) (PStr db_price) = inr (Fin 0))
  /\ (forall s c,
      py_float_of_str (strip_price scraped_price) = inr (Fin s) ->
      py_float_of_str (strip_price db_price) = inr (Fin c) ->
      exists z, calculate_price_similarity py_repr (PStr scraped_price) (PStr db_price)
                  = inr (Fin z)
        /\ z == Qmax 0 (100 - Qabs (s - c) / (if Qeq_bool c 0 then 1 else c) * 100))
  /\ (exists z, calculate_price_similarity py_repr (PStr scraped_price) (PStr db_price)
                  = inr (Fin z)).
Proof.
  split; [|split].
  - intros Hfail. unfold calculate_price_similarity, calculate_price_similarity_body.
    simpl py_str. unfold py_float_of_str at 1 2.
    destruct Hfail as [H | H]; rewrite H; cbv [bind raise]; [reflexivity|].
    destruct (parse_decimal (strip_price scraped_price)); reflexivity.
  - intros s c Hs Hd. exact (price_similarity_of_finite py_repr (PStr scraped_price) (PStr db_price) s c Hs Hd).
  - destruct (calculate_price_similarity_finite py_repr (PStr scraped_price) (PStr db_price))
      as [z [Hz _]].
    exists z. exact Hz.
Qed.

(** C10 (counterexample): two equal 400-digit prices both parse to [+inf];
    [inf - inf] is NaN and the similarity is 0, not 100. *)
Lemma price_similarity_C10_overflow :
  to_float (10 ^ 400 - 1) = Inf true
  /\ parse_decimal (strip_price (nines 400)) = Some (inject_Z (10 ^ 400 - 1))
  /\ calculate_price_similarity (fun _ => "") (PStr (nines 400)) (PStr (nines 400))
     = inr (Fin 0).
Proof. split; [|split]; vm_compute; reflexivity. Qed.

(** Equal decimal values below the overflow bound give equal finite floats. *)
Lemma to_float_equal_finite (q q' : Q) :
  q == q' -> q < float_overflow_bound ->
  exists x x', to_float q = Fin x /\ to_float q' = Fin x' /\ x == x'.
Proof.
  intros Hq Hb. unfold to_float.
  assert (Hb' : q' < float_overflow_bound) by (rewrite <- Hq; exact Hb).
  assert (Qle_bool float_overflow_bound q = false) as ->.
  { destruct (Qle_bool float_overflow_bound q) eqn:E; [|reflexivity].
    apply Qle_bool_iff in E. exfalso. exact (Qlt_not_le _ _ Hb E). }
  assert (Qle_bool float_overflow_bound q' = false) as ->.
  { destruct (Qle_bool float_overflow_bound q') eqn:E; [|reflexivity].
    apply Qle_bool_iff in E. exfalso. exact (Qlt_not_le _ _ Hb' E). }
  destruct (Qle_bool q float_underflow_bound) eqn:E1,
           (Qle_bool q' float_underflow_bound) eqn:E2.
  - exists 0, 0. repeat split; reflexivity.
  - apply Qle_bool_iff in E1. rewrite Hq in E1. apply Qle_bool_iff in E1. congruence.
  - apply Qle_bool_iff in E2. rewrite <- Hq in E2. apply Qle_bool_iff in E2. congruence.
  - exists q, q'. repeat split; assumption.
Qed.

(** C10 (amended): two price strings whose stripped forms parse to the
    same value, below the point where [float()] overflows to infinity,
    have price similarity exactly 100 (also for the value 0). *)
Theorem calculate_price_similarity_same_value (py_repr : pyval -> string)
  (scraped_price db_price : string) (q q' : Q) :
  parse_decimal (strip_price scraped_price) = Some q ->
  parse_decimal (strip_price db_price) = Some q' ->
  q == q' -> q < float_overflow_bound ->
  exists z, calculate_price_similarity py_repr (PStr scraped_price) (PStr db_price)
              = inr (Fin z) /\ z == 100.
Proof.
  intros Hs Hd Hq Hb.
  destruct (to_float_equal_finite q q' Hq Hb) as [x [x' [Hx [Hx' Hxx]]]].
  assert (Ps : py_float_of_str (strip_price (py_str py_repr (PStr scraped_price)))
               = inr (Fin x)) by (simpl; unfold py_float_of_str; rewrite Hs, Hx; reflexivity).
  assert (Pd : py_float_of_str (strip_price (py_str py_repr (PStr db_price)))
               = inr (Fin x')) by (simpl; unfold py_float_of_str; rewrite Hd, Hx'; reflexivity).
  destruct (price_similarity_of_finite py_repr _ _ x x' Ps Pd) as [z [Hz Hzv]].
  exists z. split; [exact Hz|]. rewrite Hzv.
  assert (H0 : x - x' == 0) by lra.
  assert (Ha : Qabs (x - x') == 0) by (rewrite H0; reflexivity).
  rewrite Ha. unfold Qdiv. rewrite Qmult_0_l, Qmult_0_l.
  reflexivity.
Qed.

(** ** Properties of [calculate_spec_similarity] *)

Lemma py_max_Qmax (a b : Q) : py_max a b == Qmax a b.
Proof.
  unfold py_max. destruct (Qlt_bool a b) eqn:E.
  - apply Qlt_bool_iff in E. symmetry. apply Q.max_r. lra.
  - apply Qlt_bool_false in E. symmetry. apply Q.max_l. exact E.
Qed.

Lemma fold_right_Qmax_compat (l : list Q) (a a' : Q) :
  a == a' -> fold_right Qmax a l == fold_right Qmax a' l.
Proof.
  intros H. induction l as [|y l IH]; simpl; [exact H|]. rewrite IH. reflexivity.
Qed.

Lemma fold_right_Qmax_swap (l : list Q) (a b : Q) :
  fold_right Qmax (Qmax a b) l == Qmax b (fold_right Qmax a l).
Proof.
  induction l as [|y l IH]; simpl; [apply Q.max_comm|].
  rewrite IH, !Q.max_assoc, (Q.max_comm y b). reflexivity.
Qed.

Lemma fold_left_py_max (l : list Q) (acc : Q) :
  fold_left py_max l acc == fold_right Qmax acc l.
Proof.
  revert acc. induction l as [|y l IH]; intros acc; simpl; [reflexivity|].
  rewrite IH. rewrite (fold_right_Qmax_compat l _ _ (py_max_Qmax acc y)).
  apply fold_right_Qmax_swap.
Qed.

Lemma best_match_score_as_specified (py_repr : pyval -> string)
  (token_set_ratio : string -> string -> Q) (key : string) (value : pyval)
  (db_specs : list (string * pyval)) :
  best_match_score py_repr token_set_ratio key value db_specs
  == attribute_score_as_specified py_repr token_set_ratio key value db_specs.
Proof.
  unfold best_match_score, attribute_score_as_specified.
  rewrite <- fold_left_py_max. generalize (0 : Q) as acc.
  induction db_specs as [|[db_key db_value] db_specs IH]; intros acc; simpl; [reflexivity|].
  destruct (Qlt_bool 80 _); simpl; apply IH.
Qed.

Lemma match_scores_of_dict (py_repr : pyval -> string)
  (token_set_ratio : string -> string -> Q) (items db_specs : list (string * pyval)) :
  match_scores_of py_repr token_set_ratio items (PDict db_specs)
  = inr (map (fun '(key, value) => best_match_score py_repr token_set_ratio key value db_specs)
             items).
Proof.
  induction items as [|[key value] items IH]; simpl; [reflexivity|].
  rewrite IH. reflexivity.
Qed.

Lemma Qsum_acc (l : list Q) (a : Q) : fold_left Qplus l a == a + Qsum l.
Proof.
  unfold Qsum. revert a. induction l as [|y l IH]; intros a; simpl; [lra|].
  rewrite (IH (a + y)), (IH (0 + y)). lra.
Qed.

Lemma Qsum_cons (y : Q) (l : list Q) : Qsum (y :: l) == y + Qsum l.
Proof. unfold Qsum at 1. simpl. rewrite Qsum_acc. lra. Qed.

Lemma Qsum_map_le {A} (f g : A -> Q) (l : list A) :
  (forall x, In x l -> f x <= g x) -> Qsum (map f l) <= Qsum (map g l).
Proof.
  induction l as [|x l IH]; intros H; simpl; [apply Qle_refl|].
  rewrite !Qsum_cons. apply Qplus_le_compat; [apply H; left; reflexivity|].
  apply IH. intros y Hy. apply H. right. exact Hy.
Qed.

Lemma Qsum_map_eq {A} (f g : A -> Q) (l : list A) :
  (forall x, In x l -> f x == g x) -> Qsum (map f l) == Qsum (map g l).
Proof.
  intros H. apply Qle_antisym; apply Qsum_map_le; intros x Hx; rewrite (H x Hx); apply Qle_refl.
Qed.

Lemma Qsum_map_nonneg {A} (f : A -> Q) (l : list A) :
  (forall x, In x l -> 0 <= f x) -> 0 <= Qsum (map f l).
Proof.
  induction l as [|x l IH]; intros H; simpl; [apply Qle_refl|].
  rewrite Qsum_cons.
  assert (0 <= f x) by (apply H; left; reflexivity).
  assert (0 <= Qsum (map f l)) by (apply IH; intros y Hy; apply H; right; exact Hy).
  lra.
Qed.

Lemma fold_right_Qmax_nonneg (l : list Q) : 0 <= fold_right Qmax 0 l.
Proof.
  induction l as [|y l IH]; simpl; [apply Qle_refl|].
  eapply Qle_trans; [exact IH|apply Q.le_max_r].
Qed.

Lemma fold_right_Qmax_ub (l : list Q) (y : Q) : In y l -> y <= fold_right Qmax 0 l.
Proof.
  induction l as [|z l IH]; simpl; [contradiction|].
  intros [<- | Hy]; [apply Q.le_max_l|].
  eapply Qle_trans; [exact (IH Hy)|apply Q.le_max_r].
Qed.

Lemma fold_right_Qmax_lub (l : list Q) (u : Q) :
  0 <= u -> (forall y, In y l -> y <= u) -> fold_right Qmax 0 l <= u.
Proof.
  intros H0. induction l as [|z l IH]; intros H; simpl; [exact H0|].
  apply Q.max_lub; [apply H; left; reflexivity|].
  apply IH. intros y Hy. apply H. right. exact Hy.
Qed.

Lemma attribute_score_incl (py_repr : pyval -> string)
  (token_set_ratio : string -> string -> Q) (key : string) (value : pyval)
  (db_specs db_specs' : list (string * pyval)) :
  incl db_specs db_specs' ->
  attribute_score_as_specified py_repr token_set_ratio key value db_specs
  <= attribute_score_as_specified py_repr token_set_ratio key value db_specs'.
Proof.
  intros Hincl. unfold attribute_score_as_specified.
  apply fold_right_Qmax_lub; [apply fold_right_Qmax_nonneg|].
  intros y Hy. apply fold_right_Qmax_ub.
  apply in_map_iff in Hy as [e [He Hin]]. apply filter_In in Hin as [Hin Hok].
  apply in_map_iff. exists e. split; [exact He|].
  apply filter_In. split; [apply Hincl; exact Hin|exact Hok].
Qed.

Lemma spec_similarity_as_specified_nonneg (py_repr : pyval -> string)
  (token_set_ratio : string -> string -> Q) (scraped_specs db_specs : list (string * pyval)) :
  0 <= spec_similarity_as_specified py_repr token_set_ratio scraped_specs db_specs.
Proof.
  unfold spec_similarity_as_specified.
  destruct scraped_specs as [|s0 ss]; [apply Qle_refl|].
  destruct db_specs as [|d0 ds]; [apply Qle_refl|].
  unfold Qdiv. apply Qmult_le_0_compat.
  - apply Qsum_map_nonneg. intros [k v] _. apply fold_right_Qmax_nonneg.
  - apply Qinv_le_0_compat. unfold Qle; simpl; lia.
Qed.

Lemma calculate_spec_similarity_dicts (py_repr : pyval -> string)
  (token_set_ratio : string -> string -> Q) (scraped_specs db_specs : list (string * pyval)) :
  exists x, calculate_spec_similarity py_repr token_set_ratio (PDict scraped_specs) (PDict db_specs)
            = inr x
    /\ x == spec_similarity_as_specified py_repr token_set_ratio scraped_specs db_specs.
Proof.
  unfold calculate_spec_similarity, spec_similarity_as_specified.
  destruct scraped_specs as [|s0 ss]; [eexists; split; reflexivity|].
  destruct db_specs as [|d0 ds]; [eexists; split; reflexivity|].
  assert (truthy (PDict (s0 :: ss)) = true) as -> by reflexivity.
  assert (truthy (PDict (d0 :: ds)) = true) as -> by reflexivity.
  cbv [negb orb bind dict_items ret].
  rewrite match_scores_of_dict. cbv [ret].
  set (db := d0 :: ds).
  assert (Hs : Qsum (map (fun '(key, value) => best_match_score py_repr token_set_ratio key value db)
                     (s0 :: ss))
               == Qsum (map (fun '(key, value) =>
                      attribute_score_as_specified py_repr token_set_ratio key value db) (s0 :: ss))).
  { apply Qsum_map_eq. intros [k v] _. apply best_match_score_as_specified. }
  eexists. split; [reflexivity|].
  rewrite (length_map _ (s0 :: ss)).
  cbv beta iota delta [map] in Hs |- *. fold (@map (string * pyval) Q) in Hs |- *.
  rewrite Hs. reflexivity.
Qed.

(** C4: for a scraped attribute map and a catalog attribute map, the spec
    similarity is the average over the scraped attributes of the largest
    value similarity among catalog labels whose label similarity exceeds
    80 (0 for an attribute without such a label); adding attributes to the
    catalog map never lowers it; and it is 0 when either map is empty. *)
Theorem calculate_spec_similarity_spec (py_repr : pyval -> string)
  (token_set_ratio : string -> string -> Q) (scraped_specs db_specs : list (string * pyval)) :
  (exists x, calculate_spec_similarity py_repr token_set_ratio
               (PDict scraped_specs) (PDict db_specs) = inr x
     /\ x == spec_similarity_as_specified py_repr token_set_ratio scraped_specs db_specs)
  /\ (forall db_specs', incl db_specs db_specs' ->
      exists x x',
        calculate_spec_similarity py_repr token_set_ratio
          (PDict scraped_specs) (PDict db_specs) = inr x
        /\ calculate_spec_similarity py_repr token_set_ratio
          (PDict scraped_specs) (PDict db_specs') = inr x'
        /\ x <= x')
  /\ calculate_spec_similarity py_repr token_set_ratio (PDict []) (PDict db_specs) = inr 0
  /\ calculate_spec_similarity py_repr token_set_ratio (PDict scraped_specs) (PDict []) = inr 0.
Proof.
  split; [apply calculate_spec_similarity_dicts|].
  split; [|split; [reflexivity|]].
  2: { unfold calculate_spec_similarity. destruct (truthy (PDict scraped_specs)); reflexivity. }
  intros db_specs' Hincl.
  destruct (calculate_spec_similarity_dicts py_repr token_set_ratio scraped_specs db_specs)
    as [x [Hx Ex]].
  destruct (calculate_spec_similarity_dicts py_repr token_set_ratio scraped_specs db_specs')
    as [x' [Hx' Ex']].
  exists x, x'. split; [exact Hx|]. split; [exact Hx'|].
  rewrite Ex, Ex'. clear Hx Hx' Ex Ex'.
  unfold spec_similarity_as_specified at 1.
  destruct scraped_specs as [|s0 ss]; [apply spec_similarity_as_specified_nonneg|].
  destruct db_specs as [|d0 ds]; [apply spec_similarity_as_specified_nonneg|].
  destruct db_specs' as [|d0' ds'].
  { exfalso. apply (Hincl d0). left. reflexivity. }
  unfold spec_similarity_as_specified. unfold Qdiv.
  apply Qmult_le_compat_r.
  - apply Qsum_map_le. intros [k v] _. apply attribute_score_incl. exact Hincl.
  - apply Qinv_le_0_compat. unfold Qle; simpl; lia.
Qed.

Lemma calculate_price_similarity_same_value_witness :
  parse_decimal (strip_price "$299.99") = Some (29999 # 100)
  /\ parse_decimal (strip_price "299.99") = Some (29999 # 100)
  /\ exists z, calculate_price_similarity (fun _ => "") (PStr "$299.99") (PStr "299.99")
                 = inr (Fin z) /\ z == 100.
Proof.
  split; [reflexivity|]. split; [reflexivity|].
  apply (calculate_price_similarity_same_value (fun _ => "") "$299.99" "299.99"
           (29999 # 100) (29999 # 100)); [reflexivity | reflexivity | reflexivity |].
  vm_compute. reflexivity.
Defined.

(** ** Properties of [find_best_match] *)

Section BestMatch.
Variable py_repr : pyval -> string.
Variable token_set_ratio : string -> string -> Q.
Variable json_loads : string -> option pyval.

Let score := calculate_similarity_score py_repr token_set_ratio json_loads.
Let collect := collect_matches py_repr token_set_ratio json_loads.

Lemma collect_matches_ok (scraped_product : row) (products : list row) (threshold : Q)
  (ms : list (row * Q)) :
  collect scraped_product products threshold = inr ms ->
  (forall p, In p products -> exists s, score scraped_product p = inr s)
  /\ (forall m, In m ms ->
        In (fst m) products /\ score scraped_product (fst m) = inr (snd m)
        /\ threshold <= snd m)
  /\ (forall p s, In p products -> score scraped_product p = inr s -> threshold <= s ->
        In (p, s) ms).
Proof.
  subst score collect.
  revert ms. induction products as [|p products IH]; intros ms H; simpl in H.
  - injection H as <-. split; [intros p []|]. split; [intros m []|]. intros p s [].
  - destruct (calculate_similarity_score py_repr token_set_ratio json_loads scraped_product p)
      as [e|s] eqn:Hp; [discriminate|].
    cbv [bind] in H.
    destruct (collect_matches py_repr token_set_ratio json_loads scraped_product products threshold)
      as [e|tl] eqn:Ht; [discriminate|].
    destruct (IH tl eq_refl) as [A [B C]]. cbv [ret] in H. injection H as <-.
    split; [|split].
    + intros q [<- | Hq]; [exists s; exact Hp | apply A; exact Hq].
    + intros m Hm. destruct (Qle_bool threshold s) eqn:Hle.
      * destruct Hm as [<- | Hm].
        -- simpl. split; [left; reflexivity|]. split; [exact Hp|]. apply Qle_bool_iff, Hle.
        -- destruct (B m Hm) as [B1 B2]. split; [right; exact B1|exact B2].
      * destruct (B m Hm) as [B1 B2]. split; [right; exact B1|exact B2].
    + intros q s' [<- | Hq] Hs' Hth.
      * rewrite Hp in Hs'. injection Hs' as <-.
        apply Qle_bool_iff in Hth. rewrite Hth. left. reflexivity.
      * destruct (Qle_bool threshold s); [right|]; apply C; assumption.
Qed.

Lemma collect_matches_total (scraped_product : row) (products : list row) (threshold : Q) :
  (forall p, In p products -> exists s, score scraped_product p = inr s) ->
  exists ms, collect scraped_product products threshold = inr ms.
Proof.
  subst score collect.
  induction products as [|p products IH]; intros H; simpl; [eexists; reflexivity|].
  destruct (H p (or_introl eq_refl)) as [s Hs]. rewrite Hs. cbv [bind].
  destruct IH as [tl Htl]; [intros q Hq; apply H; right; exact Hq|].
  rewrite Htl. eexists. reflexivity.
Qed.

Lemma collect_matches_raise (scraped_product : row) (products : list row) (threshold : Q)
  (p : row) (e : exn) :
  In p products -> score scraped_product p = inl e ->
  exists e', collect scraped_product products threshold = inl e'.
Proof.
  intros Hin Hp.
  destruct (collect scraped_product products threshold) as [e'|ms] eqn:H; [exists e'; reflexivity|].
  destruct (collect_matches_ok _ _ _ _ H) as [A _].
  destruct (A p Hin) as [s Hs]. congruence.
Qed.

End BestMatch.

Lemma insert_desc_In (m y : row * Q) (l : list (row * Q)) :
  In y (insert_desc m l) <-> y = m \/ In y l.
Proof.
  induction l as [|m' l IH]; simpl; [firstorder congruence|].
  destruct (Qlt_bool (snd m') (snd m)); simpl; [firstorder congruence|].
  rewrite IH. firstorder congruence.
Qed.

Lemma insert_desc_head_max (m : row * Q) (l : list (row * Q)) :
  head_max l -> head_max (insert_desc m l).
Proof.
  destruct l as [|m' l]; simpl; [intros; contradiction|].
  intros H. destruct (Qlt_bool (snd m') (snd m)) eqn:E; simpl.
  - apply Qlt_bool_iff in E. intros y [<- | Hy]; [apply Qlt_le_weak, E|].
    apply Qle_trans with (snd m'); [apply H, Hy | apply Qlt_le_weak, E].
  - apply Qlt_bool_false in E. intros y Hy. apply insert_desc_In in Hy as [-> | Hy].
    + exact E.
    + apply H, Hy.
Qed.

Lemma sort_desc_props (l : list (row * Q)) :
  head_max (sort_desc l) /\ (forall y, In y (sort_desc l) <-> In y l).
Proof.
  unfold sort_desc.
  assert (G : forall acc, head_max acc ->
            head_max (fold_left (fun acc m => insert_desc m acc) l acc)
            /\ (forall y, In y (fold_left (fun acc m => insert_desc m acc) l acc)
                          <-> In y l \/ In y acc)).
  { induction l as [|m l IH]; intros acc Hacc; simpl; [split; [exact Hacc|intros y; tauto]|].
    destruct (IH (insert_desc m acc) (insert_desc_head_max m acc Hacc)) as [H1 H2].
    split; [exact H1|]. intros y. rewrite H2, insert_desc_In. firstorder congruence. }
  destruct (G [] I) as [H1 H2]. split; [exact H1|]. intros y. rewrite H2. simpl. tauto.
Qed.

Lemma dict_lookup_setitem (d : row) (k : string) (v : pyval) :
  dict_lookup (dict_setitem d k v) k = Some v.
Proof.
  induction d as [|[k' v'] d IH]; simpl.
  - rewrite String.eqb_refl. reflexivity.
  - destruct (String.eqb k k') eqn:E; simpl; rewrite E; [reflexivity|exact IH].
Qed.

(** What [find_best_match] returns, when it returns a row. *)
Lemma find_best_match_some (py_repr : pyval -> string)
  (token_set_ratio : string -> string -> Q) (json_loads : string -> option pyval)
  (scraped_product : row) (all_products : M (list row)) (threshold : Q) (best : row) :
  find_best_match py_repr token_set_ratio json_loads scraped_product all_products threshold
    = Some best ->
  exists products db_product s,
    all_products = inr products /\ In db_product products
    /\ calculate_similarity_score py_repr token_set_ratio json_loads scraped_product db_product
       = inr s
    /\ threshold <= s
    /\ best = dict_setitem db_product "similarity_score" (PFloat (Fin s))
    /\ (forall p' s', In p' products ->
          calculate_similarity_score py_repr token_set_ratio json_loads scraped_product p'
          = inr s' -> s' <= s).
Proof.
  unfold find_best_match, find_best_match_body.
  destruct all_products as [e|products]; cbv [bind]; [discriminate|].
  destruct (collect_matches py_repr token_set_ratio json_loads scraped_product products threshold)
    as [e|ms] eqn:Hms; [discriminate|].
  destruct (sort_desc_props ms) as [Hhead Hin].
  destruct (sort_desc ms) as [|[p s] rest] eqn:Hs; cbv [ret]; [discriminate|].
  intros H. injection H as <-.
  destruct (collect_matches_ok _ _ _ _ _ _ _ Hms) as [_ [B C]].
  assert (Hps : In (p, s) ms) by (apply Hin; left; reflexivity).
  destruct (B _ Hps) as [B1 [B2 B3]]. simpl in B1, B2, B3.
  exists products, p, s. repeat split; try assumption.
  intros p' s' Hp' Hs'.
  destruct (Qlt_bool s' threshold) eqn:Elt.
  - apply Qlt_bool_iff in Elt. apply Qlt_le_weak, Qlt_le_trans with threshold; assumption.
  - apply Qlt_bool_false in Elt.
    assert (Hm : In (p', s') ((p, s) :: rest)) by (apply Hin, C; assumption).
    destruct Hm as [Heq | Hm].
    + injection Heq as _ ->. apply Qle_refl.
    + exact (Hhead _ Hm).
Qed.

(** C2: [find_best_match] returns a catalog row only if its composite score
    is at or above the threshold, and then it is the row with the largest
    score, annotated with that score under ["similarity_score"]; when every
    candidate is scored without raising and one reaches the threshold, a row
    is returned;
    when no candidate reaches the threshold it returns [None]. *)
Theorem find_best_match_spec (py_repr : pyval -> string)
  (token_set_ratio : string -> string -> Q) (json_loads : string -> option pyval)
  (scraped_product : row) (products : list row) (threshold : Q) :
  let score := calculate_similarity_score py_repr token_set_ratio json_loads scraped_product in
  let result := find_best_match py_repr token_set_ratio json_loads scraped_product
                  (inr products) threshold in
  (forall best, result = Some best ->
     exists db_product s,
       In db_product products /\ score db_product = inr s /\ threshold <= s
       /\ best = dict_setitem db_product "similarity_score" (PFloat (Fin s))
       /\ (forall p' s', In p' products -> score p' = inr s' -> s' <= s))
  /\ ((forall p, In p products -> exists s, score p = inr s) ->
      (exists p s, In p products /\ score p = inr s /\ threshold <= s) ->
      exists best, result = Some best)
  /\ ((forall p s, In p products -> score p = inr s -> s < threshold) -> result = None).
Proof.
  intros score result. subst score result. split; [|split].
  - intros best H.
    destruct (find_best_match_some _ _ _ _ _ _ _ H)
      as [products' [p [s [Hall [Hp [Hs [Ht [Hb Hmax]]]]]]]].
    injection Hall as <-. exists p, s. repeat split; assumption.
  - intros Hall [p [s [Hp [Hs Ht]]]].
    destruct (collect_matches_total py_repr token_set_ratio json_loads scraped_product
                products threshold Hall) as [ms Hms].
    destruct (collect_matches_ok _ _ _ _ _ _ _ Hms) as [_ [_ C]].
    destruct (sort_desc_props ms) as [_ Hin].
    unfold find_best_match, find_best_match_body. cbv [bind]. rewrite Hms.
    assert (Hm : In (p, s) (sort_desc ms)) by (apply Hin, C; assumption).
    destruct (sort_desc ms) as [|[p0 s0] rest]; [contradiction|].
    eexists. reflexivity.
  - intros Hnone.
    destruct (find_best_match py_repr token_set_ratio json_loads scraped_product
                (inr products) threshold) as [best|] eqn:H; [|reflexivity].
    destruct (find_best_match_some _ _ _ _ _ _ _ H)
      as [products' [p [s [Hall [Hp [Hs [Ht _]]]]]]].
    injection Hall as <-. exfalso. exact (Qlt_not_le _ _ (Hnone p s Hp Hs) Ht).
Qed.

Lemma find_best_match_row_raises (py_repr : pyval -> string)
  (token_set_ratio : string -> string -> Q) (json_loads : string -> option pyval)
  (scraped_product : row) (products : list row) (threshold : Q) (p : row) (e : exn) :
  In p products ->
  calculate_similarity_score py_repr token_set_ratio json_loads scraped_product p = inl e ->
  find_best_match py_repr token_set_ratio json_loads scraped_product (inr products) threshold
  = None.
Proof.
  intros Hin Hp.
  destruct (collect_matches_raise py_repr token_set_ratio json_loads scraped_product products
              threshold p e Hin Hp) as [e' He'].
  unfold find_best_match, find_best_match_body. cbv [bind]. rewrite He'. reflexivity.
Qed.

Lemma fault_good_score (py_repr : pyval -> string) (token_set_ratio : string -> string -> Q)
  (json_loads : string -> option pyval) :
  exists p, calculate_price_similarity py_repr (PStr "$289.99") (PStr "289.99") = inr (Fin p)
  /\ p == 100 /\
  calculate_similarity_score py_repr token_set_ratio json_loads fault_scraped fault_good_row
  = inr (total_score (token_set_ratio "ryzen 9 5900x" "ryzen 9 5900x") 0 p).
Proof.
  eexists. split; [vm_compute; reflexivity|]. split; [vm_compute; reflexivity|].
  unfold calculate_similarity_score. cbv [bind ret dict_getitem dict_lookup String.eqb].
  reflexivity.
Qed.

Lemma fault_bad_score (py_repr : pyval -> string) (token_set_ratio : string -> string -> Q)
  (json_loads : string -> option pyval) :
  json_loads "{cores: 8" = None ->
  calculate_similarity_score py_repr token_set_ratio json_loads fault_scraped fault_bad_row
  = inl JSONDecodeError.
Proof.
  intros H. unfold calculate_similarity_score. cbv [bind ret dict_getitem dict_lookup String.eqb].
  simpl. rewrite H. reflexivity.
Qed.

(** C1 (counterexample): the catalog holds the scraped CPU itself, which
    scores 70 at the default threshold, and a row with malformed serialized
    specs; the whole search returns [None]. This holds for every
    [token_set_ratio] that gives 100 on the two equal normalized names and
    every [json.loads] that rejects ["{cores: 8"]. *)
Lemma find_best_match_C1_fault_aborts :
  normalize_text (fun _ => "") (PStr "Ryzen 9 5900X") = "ryzen 9 5900x"
  /\ forall (py_repr : pyval -> string) (token_set_ratio : string -> string -> Q)
       (json_loads : string -> option pyval),
     token_set_ratio "ryzen 9 5900x" "ryzen 9 5900x" = 100 ->
     json_loads "{cores: 8" = None ->
     (exists s, calculate_similarity_score py_repr token_set_ratio json_loads
                  fault_scraped fault_good_row = inr s /\ s == 70)
     /\ calculate_similarity_score py_repr token_set_ratio json_loads
          fault_scraped fault_bad_row = inl JSONDecodeError
     /\ find_best_match py_repr token_set_ratio json_loads fault_scraped
          (inr [fault_good_row; fault_bad_row]) 70 = None.
Proof.
  split; [reflexivity|]. intros py_repr token_set_ratio json_loads Hr Hj.
  destruct (fault_good_score py_repr token_set_ratio json_loads) as [p [_ [Hp Hs]]].
  split; [|split].
  - eexists. split; [exact Hs|]. rewrite Hr. unfold total_score. rewrite Hp. reflexivity.
  - exact (fault_bad_score py_repr token_set_ratio json_loads Hj).
  - apply (find_best_match_row_raises _ _ _ _ _ _ fault_bad_row JSONDecodeError).
    + right. left. reflexivity.
    + exact (fault_bad_score py_repr token_set_ratio json_loads Hj).
Qed.

(** C2 (counterexample): a catalog row reaches the threshold, yet
    [find_best_match] returns [None] because an earlier row raises while
    it is scored. *)
Lemma find_best_match_C2_fault_hides_match :
  normalize_text (fun _ => "") (PStr "Ryzen 9 5900X") = "ryzen 9 5900x"
  /\ forall (py_repr : pyval -> string) (token_set_ratio : string -> string -> Q)
       (json_loads : string -> option pyval),
     token_set_ratio "ryzen 9 5900x" "ryzen 9 5900x" = 100 ->
     json_loads "{cores: 8" = None ->
     (exists s, calculate_similarity_score py_repr token_set_ratio json_loads
                  fault_scraped fault_good_row = inr s /\ 70 <= s)
     /\ find_best_match py_repr token_set_ratio json_loads fault_scraped
          (inr [fault_bad_row; fault_good_row]) 70 = None.
Proof.
  split; [reflexivity|]. intros py_repr token_set_ratio json_loads Hr Hj.
  destruct (fault_good_score py_repr token_set_ratio json_loads) as [p [_ [Hp Hs]]].
  split.
  - eexists. split; [exact Hs|]. rewrite Hr. unfold total_score. rewrite Hp. vm_compute. discriminate.
  - apply (find_best_match_row_raises _ _ _ _ _ _ fault_bad_row JSONDecodeError).
    + left. reflexivity.
    + exact (fault_bad_score py_repr token_set_ratio json_loads Hj).
Qed.

(** C1 (the defect in general): if scoring any catalog candidate raises,
    [find_best_match] returns [None], whatever the other candidates score,
    because the only [try] encloses the whole loop. *)
Theorem find_best_match_candidate_fault (py_repr : pyval -> string)
  (token_set_ratio : string -> string -> Q) (json_loads : string -> option pyval)
  (scraped_product : row) (products : list row) (threshold : Q) (p : row) (e : exn) :
  In p products ->
  calculate_similarity_score py_repr token_set_ratio json_loads scraped_product p = inl e ->
  find_best_match py_repr token_set_ratio json_loads scraped_product (inr products) threshold
  = None.
Proof.
  intros Hin Hp. exact (find_best_match_row_raises _ _ _ _ _ threshold p e Hin Hp).
Qed.

Lemma find_best_match_candidate_fault_witness :
  In fault_bad_row [fault_good_row; fault_bad_row]
  /\ calculate_similarity_score (fun _ => "") exact_match_ratio c1_json_loads
       fault_scraped fault_bad_row = inl JSONDecodeError
  /\ find_best_match (fun _ => "") exact_match_ratio c1_json_loads fault_scraped
       (inr [fault_good_row; fault_bad_row]) 70 = None.
Proof.
  split; [simpl; right; left; reflexivity|]. split; [vm_compute; reflexivity|].
  apply (find_best_match_candidate_fault (fun _ => "") exact_match_ratio c1_json_loads
           fault_scraped [fault_good_row; fault_bad_row] 70 fault_bad_row JSONDecodeError).
  - simpl. right. left. reflexivity.
  - vm_compute. reflexivity.
Defined.

(** C8: [find_best_match] never lets an exception reach its caller: a
    failed catalog read, a catalog whose every row raises, and any
    exception in its body all give [None], the same value as an empty
    catalog; otherwise it returns [None] or an annotated catalog row. *)
Theorem find_best_match_no_raise (py_repr : pyval -> string)
  (token_set_ratio : string -> string -> Q) (json_loads : string -> option pyval)
  (scraped_product : row) (all_products : M (list row)) (threshold : Q) :
  let find := find_best_match py_repr token_set_ratio json_loads scraped_product in
  let score := calculate_similarity_score py_repr token_set_ratio json_loads scraped_product in
  (forall e, find (inl e) threshold = None /\ find (inr []) threshold = None)
  /\ (forall products, products <> [] ->
      (forall p, In p products -> exists e, score p = inl e) ->
      find (inr products) threshold = None)
  /\ (forall e, find_best_match_body py_repr token_set_ratio json_loads scraped_product
                  all_products threshold = inl e ->
      find all_products threshold = None)
  /\ (find all_products threshold = None
      \/ exists products p s, all_products = inr products /\ In p products
          /\ score p = inr s
          /\ find all_products threshold
             = Some (dict_setitem p "similarity_score" (PFloat (Fin s)))).
Proof.
  intros find score. subst find score. split; [|split; [|split]].
  - intros e. split; reflexivity.
  - intros [|p products] Hne Hall; [contradiction|].
    destruct (Hall p (or_introl eq_refl)) as [e He].
    exact (find_best_match_row_raises _ _ _ _ (p :: products) threshold p e
             (or_introl eq_refl) He).
  - intros e He. unfold find_best_match. rewrite He. reflexivity.
  - destruct (find_best_match py_repr token_set_ratio json_loads scraped_product
                all_products threshold) as [best|] eqn:H; [right|left; reflexivity].
    destruct (find_best_match_some _ _ _ _ _ _ _ H)
      as [products [p [s [Hall [Hp [Hs [_ [Hb _]]]]]]]].
    exists products, p, s. subst best. repeat split; assumption.
Qed.

(** ** Bounds and weights of the composite score *)

Section Bounds.
Variable py_repr : pyval -> string.
Variable token_set_ratio : string -> string -> Q.
Hypothesis token_set_ratio_range : forall a b, 0 <= token_set_ratio a b <= 100.

Lemma best_match_score_range (key : string) (value : pyval) (db_items : list (string * pyval)) :
  0 <= best_match_score py_repr token_set_ratio key value db_items <= 100.
Proof.
  rewrite best_match_score_as_specified. unfold attribute_score_as_specified.
  split; [apply fold_right_Qmax_nonneg|].
  apply fold_right_Qmax_lub; [lra|].
  intros y Hy. apply in_map_iff in Hy as [[k v] [<- _]]. apply token_set_ratio_range.
Qed.

Lemma match_scores_of_range (items : list (string * pyval)) (db_specs : pyval) (ms : list Q) :
  match_scores_of py_repr token_set_ratio items db_specs = inr ms ->
  forall x, In x ms -> 0 <= x <= 100.
Proof.
  revert ms. induction items as [|[key value] items IH]; intros ms H; simpl in H.
  - injection H as <-. intros x [].
  - destruct (dict_items db_specs) as [e|db_items]; [discriminate|]. cbv [bind] in H.
    destruct (match_scores_of py_repr token_set_ratio items db_specs) as [e|rest] eqn:Hr;
      [discriminate|].
    cbv [ret] in H. injection H as <-.
    intros x [<- | Hx]; [apply best_match_score_range | exact (IH rest eq_refl x Hx)].
Qed.

Lemma Qsum_range (l : list Q) :
  (forall x, In x l -> 0 <= x <= 100) ->
  0 <= Qsum l <= 100 * inject_Z (Z.of_nat (length l)).
Proof.
  induction l as [|y l IH]; intros H.
  { unfold Qsum; simpl. split; [apply Qle_refl | unfold Qle; simpl; lia]. }
  rewrite Qsum_cons. simpl length. rewrite Nat2Z.inj_succ, <- Z.add_1_r, inject_Z_plus.
  change (inject_Z 1) with 1.
  set (n := inject_Z (Z.of_nat (length l))) in *.
  destruct (H y (or_introl eq_refl)) as [Hy1 Hy2].
  destruct IH as [I1 I2]; [intros x Hx; apply H; right; exact Hx|].
  split; lra.
Qed.

Lemma calculate_spec_similarity_range (scraped_specs db_specs : pyval) (x : Q) :
  calculate_spec_similarity py_repr token_set_ratio scraped_specs db_specs = inr x ->
  0 <= x <= 100.
Proof.
  unfold calculate_spec_similarity.
  destruct (negb (truthy scraped_specs) || negb (truthy db_specs)).
  { cbv [ret]. intros H. injection H as <-. split; lra. }
  destruct (dict_items scraped_specs) as [e|items]; cbv [bind]; [discriminate|].
  destruct (match_scores_of py_repr token_set_ratio items db_specs) as [e|ms] eqn:Hms;
    [discriminate|].
  cbv [ret]. intros H. injection H as <-.
  pose proof (match_scores_of_range _ _ _ Hms) as Hr.
  destruct ms as [|m ms']; [split; lra|].
  destruct (Qsum_range _ Hr) as [S1 S2].
  assert (Hn : 0 < inject_Z (Z.of_nat (length (m :: ms')))).
  { unfold Qlt; simpl. lia. }
  split.
  - unfold Qdiv. apply Qmult_le_0_compat; [exact S1|]. apply Qinv_le_0_compat, Qlt_le_weak, Hn.
  - apply Qle_shift_div_r; [exact Hn|exact S2].
Qed.

End Bounds.

(** The parts of a successful [calculate_similarity_score]. *)
Lemma calculate_similarity_score_inv (py_repr : pyval -> string)
  (token_set_ratio : string -> string -> Q) (json_loads : string -> option pyval)
  (scraped_product db_product : row) (sc : Q) :
  calculate_similarity_score py_repr token_set_ratio json_loads scraped_product db_product
    = inr sc ->
  exists scraped_name db_name db_specs spec_similarity price_similarity,
    dict_getitem scraped_product "name" = inr scraped_name
    /\ dict_getitem db_product "name" = inr db_name
    /\ calculate_spec_similarity py_repr token_set_ratio
         (dict_get scraped_product "specs" (PDict [])) db_specs = inr spec_similarity
    /\ calculate_price_similarity py_repr (dict_get scraped_product "price" PNone)
         (dict_get db_product "price" PNone) = inr (Fin price_similarity)
    /\ sc = total_score
              (token_set_ratio (normalize_text py_repr scraped_name)
                 (normalize_text py_repr db_name))
              spec_similarity price_similarity.
Proof.
  unfold calculate_similarity_score. cbv [bind].
  destruct (dict_getitem scraped_product "name") as [e|sn]; [discriminate|].
  destruct (dict_getitem db_product "name") as [e|dn]; [discriminate|].
  match goal with |- context [match ?m with inl _ => _ | inr _ => _ end] =>
    destruct m as [e|db_specs] eqn:Hdb end; [discriminate|].
  destruct (calculate_spec_similarity py_repr token_set_ratio
              (dict_get scraped_product "specs" (PDict [])) db_specs) as [e|ss] eqn:Hss;
    [discriminate|].
  destruct (calculate_price_similarity_finite py_repr (dict_get scraped_product "price" PNone)
              (dict_get db_product "price" PNone)) as [ps [Hps _]].
  rewrite Hps. cbv [ret]. intros H. injection H as <-.
  exists sn, dn, db_specs, ss, ps. repeat split; try reflexivity; assumption.
Qed.

(** The catalog specs [calculate_similarity_score] passes on: [{}] when the
    column is falsy, else [json.loads] of it. *)
Lemma db_specs_decoded (json_loads : string -> option pyval) (db_product : row)
  (db_specs : pyval) :
  (if truthy (dict_get db_product "specs" PNone)
   then py_json_loads json_loads (dict_get db_product "specs" (PStr "{}"))
   else ret (PDict [])) = inr db_specs ->
  (truthy (dict_get db_product "specs" PNone) = false /\ db_specs = PDict [])
  \/ exists v, dict_lookup db_product "specs" = Some v /\ truthy v = true
       /\ py_json_loads json_loads v = inr db_specs.
Proof.
  unfold dict_get. destruct (dict_lookup db_product "specs") as [v|] eqn:E.
  - destruct (truthy v) eqn:Hv; intros H.
    + right. exists v. split; [reflexivity|]. split; [exact Hv|exact H].
    + left. split; [reflexivity|]. cbv [ret] in H. injection H as <-. reflexivity.
  - simpl. intros H. left. split; [reflexivity|]. cbv [ret] in H. injection H as <-. reflexivity.
Qed.

(** The parts of a successful [calculate_similarity_score], with the
    catalog specs it compares. *)
Lemma calculate_similarity_score_parts (py_repr : pyval -> string)
  (token_set_ratio : string -> string -> Q) (json_loads : string -> option pyval)
  (scraped_product db_product : row) (sc : Q) :
  calculate_similarity_score py_repr token_set_ratio json_loads scraped_product db_product
    = inr sc ->
  exists scraped_name db_name db_specs spec_similarity price_similarity,
    dict_getitem scraped_product "name" = inr scraped_name
    /\ dict_getitem db_product "name" = inr db_name
    /\ ((truthy (dict_get db_product "specs" PNone) = false /\ db_specs = PDict [])
        \/ exists v, dict_lookup db_product "specs" = Some v /\ truthy v = true
             /\ py_json_loads json_loads v = inr db_specs)
    /\ calculate_spec_similarity py_repr token_set_ratio
         (dict_get scraped_product "specs" (PDict [])) db_specs = inr spec_similarity
    /\ calculate_price_similarity py_repr (dict_get scraped_product "price" PNone)
         (dict_get db_product "price" PNone) = inr (Fin price_similarity)
    /\ sc = total_score
              (token_set_ratio (normalize_text py_repr scraped_name)
                 (normalize_text py_repr db_name))
              spec_similarity price_similarity.
Proof.
  unfold calculate_similarity_score. cbv [bind].
  destruct (dict_getitem scraped_product "name") as [e|sn]; [discriminate|].
  destruct (dict_getitem db_product "name") as [e|dn]; [discriminate|].
  match goal with |- context [match ?m with inl _ => _ | inr _ => _ end] =>
    destruct m as [e|db_specs] eqn:Hdb end; [discriminate|].
  destruct (calculate_spec_similarity py_repr token_set_ratio
              (dict_get scraped_product "specs" (PDict [])) db_specs) as [e|ss] eqn:Hss;
    [discriminate|].
  destruct (calculate_price_similarity_finite py_repr (dict_get scraped_product "price" PNone)
              (dict_get db_product "price" PNone)) as [ps [Hps _]].
  rewrite Hps. cbv [ret]. intros H. injection H as <-.
  exists sn, dn, db_specs, ss, ps. split; [reflexivity|]. split; [reflexivity|].
  split; [exact (db_specs_decoded json_loads db_product db_specs Hdb)|].
  split; [exact Hss|]. split; reflexivity.
Qed.

(** C5: a computed composite score is
    [0.5 * name_similarity + 0.3 * spec_similarity + 0.2 * price_similarity]
    of its three sub-scores: the token-set ratio of the normalized names,
    the spec similarity of the scraped specs and the catalog entry's
    decoded specs, and the price similarity of the two prices; and the
    weighted sum is non-decreasing in each sub-score. *)
Theorem calculate_similarity_score_weights (py_repr : pyval -> string)
  (token_set_ratio : string -> string -> Q) (json_loads : string -> option pyval) :
  (forall scraped_product db_product sc,
     calculate_similarity_score py_repr token_set_ratio json_loads scraped_product db_product
       = inr sc ->
     exists scraped_name db_name db_specs spec_similarity price_similarity,
       dict_getitem scraped_product "name" = inr scraped_name
       /\ dict_getitem db_product "name" = inr db_name
       /\ ((truthy (dict_get db_product "specs" PNone) = false /\ db_specs = PDict [])
           \/ exists v, dict_lookup db_product "specs" = Some v /\ truthy v = true
                /\ py_json_loads json_loads v = inr db_specs)
       /\ calculate_spec_similarity py_repr token_set_ratio
            (dict_get scraped_product "specs" (PDict [])) db_specs = inr spec_similarity
       /\ calculate_price_similarity py_repr (dict_get scraped_product "price" PNone)
            (dict_get db_product "price" PNone) = inr (Fin price_similarity)
       /\ sc = token_set_ratio (normalize_text py_repr scraped_name)
                 (normalize_text py_repr db_name) * (5 # 10)
               + spec_similarity * (3 # 10) + price_similarity * (2 # 10))
  /\ (forall n n' s s' p p', n <= n' -> s <= s' -> p <= p' ->
      total_score n s p <= total_score n' s' p').
Proof.
  split.
  - intros scraped_product db_product sc H.
    exact (calculate_similarity_score_parts _ _ _ _ _ _ H).
  - intros n n' s s' p p' Hn Hs Hp. unfold total_score. lra.
Qed.

(** C7: when every token-set ratio lies in [0, 100], every composite score
    lies in [0, 100], and so does the score attached to a returned match. *)
Theorem calculate_similarity_score_range (py_repr : pyval -> string)
  (token_set_ratio : string -> string -> Q) (json_loads : string -> option pyval) :
  (forall a b, 0 <= token_set_ratio a b <= 100) ->
  (forall scraped_product db_product sc,
     calculate_similarity_score py_repr token_set_ratio json_loads scraped_product db_product
       = inr sc -> 0 <= sc <= 100)
  /\ (forall scraped_product all_products threshold best,
      find_best_match py_repr token_set_ratio json_loads scraped_product all_products threshold
        = Some best ->
      exists s, dict_lookup best "similarity_score" = Some (PFloat (Fin s)) /\ 0 <= s <= 100).
Proof.
  intros Hr.
  assert (Hsc : forall scraped_product db_product sc,
     calculate_similarity_score py_repr token_set_ratio json_loads scraped_product db_product
       = inr sc -> 0 <= sc <= 100).
  { intros scraped_product db_product sc H.
    destruct (calculate_similarity_score_inv _ _ _ _ _ _ H)
      as [sn [dn [dbs [ss [ps [_ [_ [Hss [Hps ->]]]]]]]]].
    pose proof (calculate_spec_similarity_range py_repr token_set_ratio Hr _ _ _ Hss) as [S1 S2].
    destruct (calculate_price_similarity_finite py_repr (dict_get scraped_product "price" PNone)
                (dict_get db_product "price" PNone)) as [z [Hz [P1 P2]]].
    rewrite Hps in Hz. injection Hz as <-.
    destruct (Hr (normalize_text py_repr sn) (normalize_text py_repr dn)) as [N1 N2].
    unfold total_score. split; lra. }
  split; [exact Hsc|].
  intros scraped_product all_products threshold best H.
  destruct (find_best_match_some _ _ _ _ _ _ _ H)
    as [products [p [s [_ [_ [Hs [_ [-> _]]]]]]]].
  exists s. split; [apply dict_lookup_setitem|]. exact (Hsc _ _ _ Hs).
Qed.

Lemma calculate_similarity_score_range_witness :
  (forall a b, 0 <= c1_token_set_ratio a b <= 100)
  /\ exists sc, calculate_similarity_score (fun _ => "") c1_token_set_ratio c1_json_loads
                 c1_scraped c1_good_row = inr sc /\ 0 <= sc <= 100.
Proof.
  assert (Hr : forall a b, 0 <= c1_token_set_ratio a b <= 100).
  { intros a b. unfold c1_token_set_ratio. split; lra. }
  split; [exact Hr|].
  destruct (calculate_similarity_score_range (fun _ => "") c1_token_set_ratio c1_json_loads Hr)
    as [H1 _].
  assert (E : calculate_similarity_score (fun _ => "") c1_token_set_ratio c1_json_loads
                c1_scraped c1_good_row = inr (20299300000000 # 289990000000))
    by (vm_compute; reflexivity).
  exists (20299300000000 # 289990000000). split; [exact E | exact (H1 _ _ _ E)].
Defined.

(** ** Properties of the specification extractors *)

Lemma dict_lookup_setitem_other (d : row) (k k' : string) (v : pyval) :
  k' <> k -> dict_lookup (dict_setitem d k v) k' = dict_lookup d k'.
Proof.
  intros Hne. induction d as [|[k0 v0] d IH]; simpl.
  - destruct (String.eqb_spec k' k); [contradiction|reflexivity].
  - destruct (String.eqb k k0) eqn:E; simpl.
    + apply String.eqb_eq in E. subst k0.
      destruct (String.eqb_spec k' k); [contradiction|reflexivity].
    + destruct (String.eqb k' k0); [reflexivity|exact IH].
Qed.

Section Rules.
Variable re_search : string -> string -> option (list string).
Variable value_of : list string -> M string.
Variable description : string.

Let step := fun (acc : M row) '(pattern, key) =>
  specs <- acc ;;
  match re_search pattern description with
  | Some groups => v <- value_of groups ;; ret (dict_setitem specs key (PStr v))
  | None => ret specs
  end.

Lemma run_rules_spec (spec_patterns : list (string * string)) (acc : row) :
  NoDup (map snd spec_patterns) ->
  (forall pattern key groups, In (pattern, key) spec_patterns ->
     re_search pattern description = Some groups -> exists v, value_of groups = inr v) ->
  exists specs, fold_left step spec_patterns (inr acc) = inr specs
    /\ (forall pattern key, In (pattern, key) spec_patterns ->
          dict_lookup specs key =
            match re_search pattern description with
            | Some groups => match value_of groups with inr v => Some (PStr v) | inl _ => None end
            | None => dict_lookup acc key
            end)
    /\ (forall k, ~ In k (map snd spec_patterns) -> dict_lookup specs k = dict_lookup acc k).
Proof.
  revert acc. induction spec_patterns as [|[pattern key] rest IH]; intros acc Hnd Hv.
  - exists acc. split; [reflexivity|]. split; [intros p k []|]. intros; reflexivity.
  - simpl in Hnd. inversion Hnd as [|? ? Hkey Hnd']. subst.
    set (acc' := match re_search pattern description with
                 | Some groups => match value_of groups with
                                  | inr v => dict_setitem acc key (PStr v) | inl _ => acc end
                 | None => acc end).
    assert (Hstep : step (inr acc) (pattern, key) = inr acc').
    { subst step acc'. cbv [bind ret].
      destruct (re_search pattern description) as [groups|] eqn:Hre; [|reflexivity].
      destruct (Hv pattern key groups (or_introl eq_refl) Hre) as [v Hvv].
      rewrite Hvv. reflexivity. }
    destruct (IH acc' Hnd') as [specs [Hf [Hin Hout]]].
    { intros p k g Hp Hre. exact (Hv p k g (or_intror Hp) Hre). }
    exists specs.
    change (fold_left step ((pattern, key) :: rest) (inr acc))
      with (fold_left step rest (step (inr acc) (pattern, key))).
    rewrite Hstep. split; [exact Hf|]. split.
    + intros p k [Heq | Hp].
      * injection Heq as <- <-. rewrite (Hout key Hkey). subst acc'.
        destruct (re_search pattern description) as [groups|] eqn:Hre; [|reflexivity].
        destruct (Hv pattern key groups (or_introl eq_refl) Hre) as [v Hvv].
        rewrite Hvv. apply dict_lookup_setitem.
      * rewrite (Hin p k Hp).
        destruct (re_search p description); [reflexivity|].
        assert (Hk : k <> key).
        { intros ->. apply Hkey. apply in_map_iff. exists (p, key). split; [reflexivity|exact Hp]. }
        subst acc'. destruct (re_search pattern description);
          [destruct (value_of l); [reflexivity|]|reflexivity].
        apply dict_lookup_setitem_other. exact Hk.
    + intros k Hk. simpl in Hk. rewrite (Hout k (fun H => Hk (or_intror H))).
      subst acc'. destruct (re_search pattern description);
        [destruct (value_of l); [reflexivity|]|reflexivity].
      apply dict_lookup_setitem_other. intros ->. apply Hk. left. reflexivity.
Qed.

End Rules.

Lemma cpu_spec_patterns_one_group (pattern key : string) :
  In (pattern, key) cpu_spec_patterns -> count_groups pattern = 1%nat.
Proof.
  simpl. intros H. repeat destruct H as [H|H]; try contradiction; injection H as <- <-; reflexivity.
Qed.

Lemma spec_entries_only_labels (specs : row) (spec_patterns : list (string * string)) :
  (forall k, ~ In k (map snd spec_patterns) -> dict_lookup specs k = dict_lookup [] k) ->
  forall k v, dict_lookup specs k = Some v -> In k (map snd spec_patterns).
Proof.
  intros Hout k v Hk. destruct (in_dec string_dec k (map snd spec_patterns)) as [Hin|Hin];
    [exact Hin|]. rewrite (Hout k Hin) in Hk. discriminate.
Qed.

(** C6: for both extractors ([src/cpuhardware.py], [src/laptopexcel.py]),
    when [re.search] returns one string per capture group of the pattern,
    every rule whose pattern matches the description stores its groups
    joined by single spaces under its label, a rule that does not match
    leaves its label absent, and no other key is present. *)
Theorem extract_specifications_rules (re_search : string -> string -> option (list string)) :
  (forall pattern text groups, re_search pattern text = Some groups ->
     length groups = count_groups pattern) ->
  forall description,
  (exists specs, extract_specifications_cpu re_search description = inr specs
     /\ (forall pattern label, In (pattern, label) cpu_spec_patterns ->
           dict_lookup specs label
           = option_map (fun groups => PStr (String.concat " " groups))
               (re_search pattern description))
     /\ (forall k v, dict_lookup specs k = Some v -> In k (map snd cpu_spec_patterns)))
  /\ (exists specs, extract_specifications_laptop re_search description = inr specs
     /\ (forall pattern label, In (pattern, label) laptop_spec_patterns ->
           dict_lookup specs label
           = option_map (fun groups => PStr (String.concat " " groups))
               (re_search pattern description))
     /\ (forall k v, dict_lookup specs k = Some v -> In k (map snd laptop_spec_patterns))).
Proof.
  intros Hgroups description. split.
  - destruct (run_rules_spec re_search group1 description cpu_spec_patterns [])
      as [specs [Hrun [Hin Hout]]].
    + simpl. repeat constructor; simpl; intuition discriminate.
    + intros pattern key groups Hp Hre.
      pose proof (Hgroups _ _ _ Hre) as Hl. rewrite (cpu_spec_patterns_one_group _ _ Hp) in Hl.
      destruct groups as [|g [|g' gs]]; try discriminate. exists g. reflexivity.
    + exists specs. split; [exact Hrun|]. split.
      * intros pattern label Hp. rewrite (Hin _ _ Hp).
        destruct (re_search pattern description) as [groups|] eqn:Hre; [|reflexivity].
        pose proof (Hgroups _ _ _ Hre) as Hl. rewrite (cpu_spec_patterns_one_group _ _ Hp) in Hl.
        destruct groups as [|g [|g' gs]]; try discriminate. reflexivity.
      * exact (spec_entries_only_labels specs cpu_spec_patterns Hout).
  - destruct (run_rules_spec re_search join_groups description laptop_spec_patterns [])
      as [specs [Hrun [Hin Hout]]].
    + simpl. repeat constructor; simpl; intuition discriminate.
    + intros pattern key groups _ _. eexists. reflexivity.
    + exists specs. split; [exact Hrun|]. split.
      * intros pattern label Hp. rewrite (Hin _ _ Hp).
        destruct (re_search pattern description); reflexivity.
      * exact (spec_entries_only_labels specs laptop_spec_patterns Hout).
Qed.

Lemma extract_specifications_rules_witness :
  (forall pattern text groups, c6_re_search pattern text = Some groups ->
     length groups = count_groups pattern)
  /\ exists specs, extract_specifications_cpu c6_re_search "Ryzen 7, 8 Cores" = inr specs
       /\ dict_lookup specs "Cores" = Some (PStr "8")
       /\ dict_lookup specs "Threads" = None.
Proof.
  assert (H : forall pattern text groups, c6_re_search pattern text = Some groups ->
            length groups = count_groups pattern).
  { intros pattern text groups. unfold c6_re_search.
    destruct (String.eqb_spec pattern "(\d+)\s*Cores?") as [->|_]; [|discriminate].
    intros E. injection E as <-. reflexivity. }
  split; [exact H|].
  destruct (extract_specifications_rules c6_re_search H "Ryzen 7, 8 Cores")
    as [[specs [E [L _]]] _].
  exists specs. split; [exact E|]. split.
  - rewrite (L "(\d+)\s*Cores?" "Cores"); [reflexivity | left; reflexivity].
  - rewrite (L "(\d+)\s*Threads?" "Threads"); [reflexivity | right; left; reflexivity].
Defined.

(** ** Properties of the further code *)

Lemma replace_fuel_single (fuel : nat) (a b : Z) (s : ustr) :
  (length s <= fuel)%nat ->
  replace_fuel fuel [a] [b] s = map (fun c => if Z.eqb c a then b else c) s.
Proof.
  revert s. induction fuel as [|fuel IH]; intros s Hl.
  - destruct s; [reflexivity|simpl in Hl; lia].
  - destruct s as [|c s]; [reflexivity|]. simpl in Hl |- *.
    rewrite Z.eqb_sym. destruct (Z.eqb c a); simpl; rewrite IH by lia; reflexivity.
Qed.

Lemma py_replace_single (a b : Z) (s : ustr) :
  py_replace [a] [b] s = map (fun c => if Z.eqb c a then b else c) s.
Proof. apply replace_fuel_single. lia. Qed.

Lemma is_arabic_digit_cases (c : Z) :
  is_arabic_digit c = true <-> (1632 <= c <= 1641)%Z.
Proof. unfold is_arabic_digit. rewrite andb_true_iff, !Z.leb_le. tauto. Qed.

Lemma arabic_digit_enum (c : Z) : (1632 <= c <= 1641)%Z ->
  c = 1632%Z \/ c = 1633%Z \/ c = 1634%Z \/ c = 1635%Z \/ c = 1636%Z
  \/ c = 1637%Z \/ c = 1638%Z \/ c = 1639%Z \/ c = 1640%Z \/ c = 1641%Z.
Proof. lia. Qed.

Lemma arabic_replace_chain (text : ustr) :
  fold_left (fun text '(arabic_num, western_num) => py_replace arabic_num western_num text)
    arabic_numerals text = map arabic_to_ascii text.
Proof.
  unfold arabic_numerals. cbn [fold_left]. rewrite !py_replace_single, !map_map. apply map_ext. intros c.
  unfold arabic_to_ascii. destruct (is_arabic_digit c) eqn:E.
  - apply is_arabic_digit_cases, arabic_digit_enum in E.
    repeat destruct E as [->|E]; try (subst c); reflexivity.
  - assert (N : ~ (1632 <= c <= 1641)%Z) by (rewrite <- is_arabic_digit_cases; congruence).
    repeat (rewrite (proj2 (Z.eqb_neq c _)) by lia). reflexivity.
Qed.

Lemma clean_text_laptops_agree (text : ustr) :
  clean_text_laptops text = clean_text_laptopexcel text.
Proof. destruct text; reflexivity. Qed.

Lemma clean_text_map (text : ustr) :
  clean_text_laptopexcel text =
    match text with [] => [] | _ => map arabic_to_ascii (py_join [32%Z] (py_split text)) end.
Proof. unfold clean_text_laptopexcel. destruct text; [reflexivity|]. apply arabic_replace_chain. Qed.

Lemma split_ws_aux_props (s cur : ustr) :
  Forall (fun c => py_isspace c = false) cur ->
  Forall word_ok (split_ws_aux s cur)
  /\ concat (split_ws_aux s cur) = (rev cur ++ filter nonspace s)%list.
Proof.
  revert cur. induction s as [|c s IH]; intros cur Hcur; simpl.
  - destruct cur as [|x cur']; simpl; [split; [constructor|reflexivity]|].
    split; [|rewrite !app_nil_r; reflexivity].
    constructor; [|constructor]. split.
    + intros H. apply (f_equal (@length Z)) in H. rewrite ?length_rev, ?length_app in H. simpl in H. lia.
    + exact (Forall_rev Hcur).
  - unfold nonspace at 1. destruct (py_isspace c) eqn:Ec; simpl.
    + destruct (IH [] (Forall_nil _)) as [F C].
      destruct cur as [|x cur']; [exact (conj F C)|].
      split.
      * constructor; [|exact F]. split.
        -- intros H. apply (f_equal (@length Z)) in H. rewrite ?length_rev, ?length_app in H. simpl in H. lia.
        -- exact (Forall_rev Hcur).
      * simpl concat. rewrite C. reflexivity.
    + destruct (IH (c :: cur) (Forall_cons _ Ec Hcur)) as [F C].
      split; [exact F|]. rewrite C. simpl. rewrite <- app_assoc. reflexivity.
Qed.

Lemma py_split_props (s : ustr) :
  Forall word_ok (py_split s) /\ concat (py_split s) = filter nonspace s.
Proof. apply (split_ws_aux_props s [] (Forall_nil _)). Qed.

Lemma split_ws_aux_word (w rest cur : ustr) :
  Forall (fun c => py_isspace c = false) w ->
  split_ws_aux (w ++ rest)%list cur = split_ws_aux rest (rev w ++ cur)%list.
Proof.
  revert cur. induction w as [|c w IH]; intros cur Hw; [reflexivity|].
  inversion Hw as [|? ? Hc Hw']; subst. simpl. rewrite Hc, IH by exact Hw'.
  rewrite <- app_assoc. reflexivity.
Qed.

Lemma py_split_join (ws : list ustr) :
  Forall word_ok ws -> py_split (py_join [32%Z] ws) = ws.
Proof.
  unfold py_split. induction ws as [|w ws IH]; intros H; [reflexivity|].
  inversion H as [|? ? [Hne Hw] H']; subst.
  destruct ws as [|w' ws].
  - simpl. rewrite <- (app_nil_r w) at 1. rewrite split_ws_aux_word by exact Hw.
    rewrite app_nil_r. simpl. destruct (rev w) eqn:E.
    + apply (f_equal (@rev Z)) in E. rewrite rev_involutive in E. contradiction.
    + rewrite <- E, rev_involutive. reflexivity.
  - change (py_join [32%Z] (w :: w' :: ws)) with (w ++ 32%Z :: py_join [32%Z] (w' :: ws))%list.
    rewrite split_ws_aux_word by exact Hw. rewrite app_nil_r. simpl.
    destruct (rev w) eqn:E.
    + apply (f_equal (@rev Z)) in E. rewrite rev_involutive in E. contradiction.
    + rewrite <- E, rev_involutive. f_equal. apply IH. exact H'.
Qed.

Lemma filter_nonspace_id (w : ustr) :
  Forall (fun c => py_isspace c = false) w -> filter nonspace w = w.
Proof.
  induction 1 as [|c w Hc _ IHw]; [reflexivity|]. simpl. unfold nonspace at 1.
  rewrite Hc. simpl. f_equal. exact IHw.
Qed.

Lemma filter_join (ws : list ustr) :
  Forall word_ok ws -> filter nonspace (py_join [32%Z] ws) = concat ws.
Proof.
  induction ws as [|w ws IH]; intros H; [reflexivity|].
  inversion H as [|? ? [_ Hw] H']; subst.
  assert (Fw : filter nonspace w = w) by (apply filter_nonspace_id; exact Hw).
  destruct ws as [|w' ws].
  - simpl. rewrite app_nil_r. exact Fw.
  - change (py_join [32%Z] (w :: w' :: ws)) with (w ++ 32%Z :: py_join [32%Z] (w' :: ws))%list.
    rewrite filter_app, Fw. simpl. f_equal. apply IH. exact H'.
Qed.

Lemma map_join (f : Z -> Z) (ws : list ustr) :
  f 32%Z = 32%Z -> map f (py_join [32%Z] ws) = py_join [32%Z] (map (map f) ws).
Proof.
  intros Hf. induction ws as [|w ws IH]; [reflexivity|].
  destruct ws as [|w' ws]; [reflexivity|].
  change (py_join [32%Z] (w :: w' :: ws)) with (w ++ 32%Z :: py_join [32%Z] (w' :: ws))%list.
  rewrite map_app. cbn [map]. rewrite Hf, IH. reflexivity.
Qed.

Lemma arabic_to_ascii_space (c : Z) : py_isspace (arabic_to_ascii c) = py_isspace c.
Proof.
  unfold arabic_to_ascii. destruct (is_arabic_digit c) eqn:E; [|reflexivity].
  apply is_arabic_digit_cases, arabic_digit_enum in E.
  repeat destruct E as [->|E]; try (subst c); reflexivity.
Qed.

Lemma arabic_to_ascii_not_digit (c : Z) : is_arabic_digit (arabic_to_ascii c) = false.
Proof.
  unfold arabic_to_ascii. destruct (is_arabic_digit c) eqn:E; [|exact E].
  apply is_arabic_digit_cases in E. destruct (is_arabic_digit (c - 1584)) eqn:E'; [|reflexivity].
  apply is_arabic_digit_cases in E'. lia.
Qed.

Lemma arabic_to_ascii_idem (c : Z) : arabic_to_ascii (arabic_to_ascii c) = arabic_to_ascii c.
Proof.
  unfold arabic_to_ascii at 1. rewrite arabic_to_ascii_not_digit. reflexivity.
Qed.

Lemma filter_map_arabic (s : ustr) :
  filter nonspace (map arabic_to_ascii s) = map arabic_to_ascii (filter nonspace s).
Proof.
  induction s as [|c s IH]; [reflexivity|]. cbn [map filter].
  replace (nonspace (arabic_to_ascii c)) with (nonspace c)
    by (unfold nonspace; rewrite arabic_to_ascii_space; reflexivity).
  destruct (nonspace c); cbn [map]; [f_equal|]; exact IH.
Qed.

Lemma clean_text_words (text : ustr) :
  exists words, clean_text_laptopexcel text = py_join [32%Z] words
     /\ Forall (fun w => w <> []
                  /\ Forall (fun c => py_isspace c = false /\ is_arabic_digit c = false) w)
          words.
Proof.
  rewrite clean_text_map.
  destruct text as [|c text']; [exists []; split; [reflexivity|constructor]|].
  set (text := c :: text'). destruct (py_split_props text) as [F _].
  exists (map (map arabic_to_ascii) (py_split text)). split; [apply map_join; reflexivity|].
  apply Forall_map. eapply Forall_impl; [|exact F]. intros w [Hne Hw]. split.
  - destruct w; [contradiction|discriminate].
  - apply Forall_map. eapply Forall_impl; [|exact Hw]. intros x Hx.
    rewrite arabic_to_ascii_space. split; [exact Hx|apply arabic_to_ascii_not_digit].
Qed.

(** X6: both [clean_text] functions ([src/laptopexcel.py], [src/laptops.py])
    agree, and their result is a list of non-empty words joined by single
    spaces, with no whitespace and no Arabic-Indic digit inside a word. *)
Theorem clean_text_normal_form (text : ustr) :
  clean_text_laptops text = clean_text_laptopexcel text
  /\ exists words, clean_text_laptopexcel text = py_join [32%Z] words
     /\ Forall (fun w => w <> []
                  /\ Forall (fun c => py_isspace c = false /\ is_arabic_digit c = false) w)
          words.
Proof. split; [apply clean_text_laptops_agree|apply clean_text_words]. Qed.

(** X7: [clean_text] of [src/laptopexcel.py] keeps every non-whitespace
    character of the input, in order, turning each Arabic-Indic digit into
    its ASCII digit and leaving the other characters unchanged: only
    whitespace is dropped or rewritten. *)
Theorem clean_text_keeps_content (text : ustr) :
  filter nonspace (clean_text_laptopexcel text) = map arabic_to_ascii (filter nonspace text).
Proof.
  rewrite clean_text_map. destruct text as [|c text']; [reflexivity|].
  set (text := c :: text'). destruct (py_split_props text) as [F C].
  rewrite filter_map_arabic, filter_join by exact F. rewrite C. reflexivity.
Qed.

(** X8: [clean_text] of [src/laptopexcel.py] is idempotent: cleaning an
    already cleaned text returns it unchanged. *)
Theorem clean_text_idempotent (text : ustr) :
  clean_text_laptopexcel (clean_text_laptopexcel text) = clean_text_laptopexcel text.
Proof.
  destruct (clean_text_words text) as [ws [Hws Fws]].
  rewrite (clean_text_map (clean_text_laptopexcel text)).
  destruct (clean_text_laptopexcel text) as [|x rest] eqn:E; [reflexivity|].
  rewrite Hws, py_split_join.
  - rewrite <- Hws, <- E, clean_text_map. destruct text as [|c text']; [reflexivity|].
    rewrite map_map. apply map_ext. apply arabic_to_ascii_idem.
  - eapply Forall_impl; [|exact Fws]. intros w [Hne Hw]. split; [exact Hne|].
    eapply Forall_impl; [|exact Hw]. intros c [Hc _]. exact Hc.
Qed.

Lemma sanitized_date_map (date : ustr) :
  sanitized_date date = map (fun c => if Z.eqb c 47 then 45%Z else c) date.
Proof. apply py_replace_single. Qed.

(** X9: [src/scrap.py] turns the entered date into [sanitized_date] by
    replacing each '/' with '-' and keeping every other character in place
    (same length); the CSV file name ["matches_" + sanitized_date + ".csv"]
    never contains a '/'. *)
Theorem sanitized_date_no_slash (date : ustr) :
  length (sanitized_date date) = length date
  /\ (forall i c, nth_error date i = Some c ->
        nth_error (sanitized_date date) i = Some (if Z.eqb c 47 then 45%Z else c))
  /\ ~ In 47%Z (csv_file_name date).
Proof.
  rewrite sanitized_date_map. split; [apply length_map|]. split.
  - intros i c H. rewrite nth_error_map, H. reflexivity.
  - unfold csv_file_name. rewrite sanitized_date_map, !in_app_iff. intros [H|[H|H]].
    + vm_compute in H. lia.
    + apply in_map_iff in H as [c [Hc _]]. destruct (Z.eqb c 47) eqn:E; [discriminate|].
      apply Z.eqb_neq in E. contradiction.
    + vm_compute in H. lia.
Qed.

Lemma count_dots_append (a b : string) : count_dots (a ++ b) = (count_dots a + count_dots b)%nat.
Proof. induction a as [|c a IH]; simpl; [reflexivity|]. rewrite IH. lia. Qed.

Lemma space_not_dot (c : ascii) : is_space c = true -> Ascii.eqb c "."%char = false.
Proof.
  intros H. destruct (Ascii.eqb_spec c "."%char) as [->|]; [discriminate|reflexivity].
Qed.

Lemma count_dots_lstrip (s : string) : count_dots (lstrip s) = count_dots s.
Proof.
  induction s as [|c s IH]; [reflexivity|]. simpl.
  destruct (is_space c) eqn:E; [|reflexivity]. rewrite space_not_dot by exact E. exact IH.
Qed.

Lemma count_dots_rstrip (s : string) : count_dots (rstrip s) = count_dots s.
Proof.
  induction s as [|c s IH]; [reflexivity|]. simpl.
  destruct (is_space c && String.eqb (rstrip s) "") eqn:E.
  - apply andb_true_iff in E as [Hs Hr]. apply String.eqb_eq in Hr.
    rewrite Hr in IH. simpl in IH. rewrite space_not_dot by exact Hs. simpl. lia.
  - simpl. rewrite IH. reflexivity.
Qed.

Lemma count_dots_strip (s : string) : count_dots (strip s) = count_dots s.
Proof. unfold strip. rewrite count_dots_rstrip, count_dots_lstrip. reflexivity. Qed.

Lemma count_dots_strip_price (s : string) : count_dots (strip_price s) = count_dots s.
Proof.
  induction s as [|c s IH]; [reflexivity|]. simpl.
  destruct (Ascii.eqb c "."%char) eqn:E; rewrite orb_comm; simpl; rewrite ?E.
  - rewrite IH. reflexivity.
  - destruct (is_digit c); simpl; rewrite ?E; exact IH.
Qed.

Lemma parse_decimal_from_dots (s : string) (seen_dot : bool) (num : Z) (frac nd : nat) :
  ((if seen_dot then 1 else 2) <= count_dots s)%nat ->
  parse_decimal_from s seen_dot num frac nd = None.
Proof.
  revert seen_dot num frac nd. induction s as [|c s IH]; intros seen_dot num frac nd H.
  - destruct seen_dot; simpl in H; lia.
  - simpl in H |- *. destruct (is_digit c) eqn:Ed.
    + assert (Ec : Ascii.eqb c "."%char = false).
      { destruct (Ascii.eqb_spec c "."%char) as [->|]; [discriminate|reflexivity]. }
      rewrite Ec in H. apply IH. exact H.
    + destruct (Ascii.eqb c "."%char); [|reflexivity].
      destruct seen_dot; [reflexivity|]. apply IH. lia.
Qed.

(** X5: the price text built by [scrape_cpu_data] ([whole.strip() + "." +
    fraction.strip()]) gets price similarity 0 against any catalog price
    when the whole part already contains a '.', since the two dots make
    [float()] raise; the same holds for the ['N/A'] price of a product
    without a whole part. *)
Theorem scraped_cpu_price_no_similarity (py_repr : pyval -> string)
  (price_whole price_fraction : option string) (db_price : pyval) :
  (price_whole = None
   \/ exists whole fraction a b, price_whole = Some whole /\ price_fraction = Some fraction
        /\ whole = a ++ "." ++ b) ->
  calculate_price_similarity py_repr (PStr (scraped_cpu_price price_whole price_fraction)) db_price
  = inr (Fin 0).
Proof.
  intros H.
  assert (Hp : py_float_of_str (strip_price (py_str py_repr
                 (PStr (scraped_cpu_price price_whole price_fraction)))) = inl ValueError).
  { destruct H as [-> | [whole [fraction [a [b [-> [-> ->]]]]]]]; [reflexivity|].
    unfold py_float_of_str, parse_decimal. simpl py_str. unfold scraped_cpu_price.
    rewrite parse_decimal_from_dots; [reflexivity|].
    rewrite count_dots_strip_price, !count_dots_append, count_dots_strip, count_dots_append.
    simpl. lia. }
  unfold calculate_price_similarity, calculate_price_similarity_body. rewrite Hp. reflexivity.
Qed.

Lemma scraped_cpu_price_no_similarity_witness :
  ((Some "1,299." = None
    \/ exists whole fraction a b, Some "1,299." = Some whole /\ Some "99" = Some fraction
         /\ whole = a ++ "." ++ b)
   /\ calculate_price_similarity (fun _ => "") (PStr (scraped_cpu_price (Some "1,299.") (Some "99")))
        (PStr "1299.99") = inr (Fin 0)).
Proof.
  assert (H : Some "1,299." = None
    \/ exists whole fraction a b, Some "1,299." = Some whole /\ Some "99" = Some fraction
         /\ whole = a ++ "." ++ b).
  { right. exists "1,299.", "99", "1,299", "". repeat split. }
  split; [exact H|]. exact (scraped_cpu_price_no_similarity (fun _ => "") _ _ _ H).
Defined.

Lemma sort_desc_app1 (l : list (row * Q)) (m : row * Q) :
  sort_desc (l ++ [m])%list = insert_desc m (sort_desc l).
Proof. unfold sort_desc. rewrite fold_left_app. reflexivity. Qed.

Lemma sort_desc_first (l : list (row * Q)) :
  match sort_desc l with [] => l = [] | h :: _ => first_max l h end.
Proof.
  induction l as [|m l IH] using rev_ind; [reflexivity|].
  rewrite sort_desc_app1. destruct (sort_desc_props l) as [Hhead Hin].
  destruct (sort_desc l) as [|h t] eqn:Hs.
  - subst l. simpl. exists [], []. split; [reflexivity|]. split; intros y [].
  - destruct IH as [pre [post [Hl [Hpre Hpost]]]]. simpl.
    destruct (Qlt_bool (snd h) (snd m)) eqn:E.
    + apply Qlt_bool_iff in E. exists l, []. split; [reflexivity|]. split; [|intros y []].
      intros y Hy. apply Hin in Hy as [<- | Hy]; [exact E|].
      apply Qle_lt_trans with (snd h); [apply Hhead, Hy|exact E].
    + apply Qlt_bool_false in E. exists pre, (post ++ [m])%list.
      split; [rewrite Hl, <- app_assoc; reflexivity|]. split; [exact Hpre|].
      intros y Hy. apply in_app_iff in Hy as [Hy|[<-|[]]]; [apply Hpost, Hy|exact E].
Qed.

Section FirstBest.
Variable py_repr : pyval -> string.
Variable token_set_ratio : string -> string -> Q.
Variable json_loads : string -> option pyval.
Variable scraped_product : row.

Let score := calculate_similarity_score py_repr token_set_ratio json_loads scraped_product.

Lemma collect_matches_split (products : list row) (threshold : Q) (ms mpre mpost : list (row * Q))
  (p : row) (s : Q) :
  collect_matches py_repr token_set_ratio json_loads scraped_product products threshold = inr ms ->
  ms = (mpre ++ (p, s) :: mpost)%list ->
  exists pre post, products = (pre ++ p :: post)%list
    /\ (forall p' s', In p' pre -> score p' = inr s' -> s' < threshold \/ In (p', s') mpre)
    /\ (forall p' s', In p' post -> score p' = inr s' -> s' < threshold \/ In (p', s') mpost).
Proof.
  subst score. revert ms mpre. induction products as [|q rest IH]; intros ms mpre H Hms; simpl in H.
  - injection H as <-. destruct mpre; discriminate.
  - destruct (calculate_similarity_score py_repr token_set_ratio json_loads scraped_product q)
      as [e|sq] eqn:Hq; [discriminate|]. cbv [bind] in H.
    destruct (collect_matches py_repr token_set_ratio json_loads scraped_product rest threshold)
      as [e|tl] eqn:Ht; [discriminate|]. cbv [ret] in H. injection H as <-.
    destruct (Qle_bool threshold sq) eqn:Hle.
    + destruct mpre as [|m0 mpre'].
      * injection Hms as -> -> ->. exists [], rest. split; [reflexivity|]. split; [intros p' s' []|].
        intros p' s' Hp' Hs'. destruct (Qlt_bool s' threshold) eqn:Elt.
        -- left. apply Qlt_bool_iff, Elt.
        -- right. apply Qlt_bool_false in Elt.
           destruct (collect_matches_ok py_repr token_set_ratio json_loads _ _ _ _ Ht) as [_ [_ C]].
           apply C; assumption.
      * injection Hms as Hm0 Htl. subst m0.
        destruct (IH tl mpre' eq_refl Htl) as [pre [post [Hr [Hpre Hpost]]]].
        exists (q :: pre), post. split; [rewrite Hr; reflexivity|]. split; [|exact Hpost].
        intros p' s' [<- | Hp'] Hs'.
        -- right. rewrite Hq in Hs'. injection Hs' as <-. left. reflexivity.
        -- destruct (Hpre p' s' Hp' Hs') as [L|R]; [left; exact L|right; right; exact R].
    + destruct (IH tl mpre eq_refl Hms) as [pre [post [Hr [Hpre Hpost]]]].
      exists (q :: pre), post. split; [rewrite Hr; reflexivity|]. split; [|exact Hpost].
      intros p' s' [<- | Hp'] Hs'; [|apply Hpre; assumption].
      left. rewrite Hq in Hs'. injection Hs' as <-. apply Qnot_le_lt. intros Hc.
      apply Qle_bool_iff in Hc. congruence.
Qed.

End FirstBest.

Lemma find_best_match_first (py_repr : pyval -> string)
  (token_set_ratio : string -> string -> Q) (json_loads : string -> option pyval)
  (scraped_product : row) (products : list row) (threshold : Q) (best : row) :
  find_best_match py_repr token_set_ratio json_loads scraped_product (inr products) threshold
    = Some best ->
  exists pre p post s,
    products = (pre ++ p :: post)%list
    /\ calculate_similarity_score py_repr token_set_ratio json_loads scraped_product p = inr s
    /\ threshold <= s
    /\ best = dict_setitem p "similarity_score" (PFloat (Fin s))
    /\ (forall p' s', In p' pre ->
          calculate_similarity_score py_repr token_set_ratio json_loads scraped_product p' = inr s' ->
          s' < s)
    /\ (forall p' s', In p' post ->
          calculate_similarity_score py_repr token_set_ratio json_loads scraped_product p' = inr s' ->
          s' <= s).
Proof.
  unfold find_best_match, find_best_match_body. cbv [bind].
  destruct (collect_matches py_repr token_set_ratio json_loads scraped_product products threshold)
    as [e|ms] eqn:Hms; [discriminate|].
  pose proof (sort_desc_first ms) as Hf.
  destruct (sort_desc ms) as [|[p s] rest] eqn:Hs; cbv [ret]; [discriminate|].
  intros H. injection H as <-.
  destruct Hf as [mpre [mpost [Hm [Hpre Hpost]]]]. simpl in Hpre, Hpost.
  destruct (collect_matches_ok _ _ _ _ _ _ _ Hms) as [_ [B _]].
  assert (Hps : In (p, s) ms) by (rewrite Hm; apply in_or_app; right; left; reflexivity).
  destruct (B _ Hps) as [_ [Hsc Ht]]. simpl in Hsc, Ht.
  destruct (collect_matches_split py_repr token_set_ratio json_loads scraped_product
              products threshold ms mpre mpost p s Hms Hm)
    as [pre [post [Hprod [Hpre' Hpost']]]].
  exists pre, p, post, s. split; [exact Hprod|]. split; [exact Hsc|]. split; [exact Ht|].
  split; [reflexivity|]. split.
  - intros p' s' Hp' Hs'. destruct (Hpre' p' s' Hp' Hs') as [L|R].
    + apply Qlt_le_trans with threshold; assumption.
    + exact (Hpre _ R).
  - intros p' s' Hp' Hs'. destruct (Hpost' p' s' Hp' Hs') as [L|R].
    + apply Qlt_le_weak, Qlt_le_trans with threshold; assumption.
    + exact (Hpost _ R).
Qed.


(** X1: when [find_best_match] returns a row, that row is the first catalog
    row, in the order the catalog read returns them, whose score reaches
    the threshold and is not exceeded: every earlier row scores strictly
    less, every later row at most as much; it comes back annotated with
    its score. *)
Theorem find_best_match_first_best (py_repr : pyval -> string)
  (token_set_ratio : string -> string -> Q) (json_loads : string -> option pyval)
  (scraped_product : row) (products : list row) (threshold : Q) (best : row) :
  find_best_match py_repr token_set_ratio json_loads scraped_product (inr products) threshold
    = Some best ->
  exists pre p post s,
    products = (pre ++ p :: post)%list
    /\ calculate_similarity_score py_repr token_set_ratio json_loads scraped_product p = inr s
    /\ threshold <= s
    /\ best = dict_setitem p "similarity_score" (PFloat (Fin s))
    /\ (forall p' s', In p' pre ->
          calculate_similarity_score py_repr token_set_ratio json_loads scraped_product p' = inr s' ->
          s' < s)
    /\ (forall p' s', In p' post ->
          calculate_similarity_score py_repr token_set_ratio json_loads scraped_product p' = inr s' ->
          s' <= s).
Proof. apply find_best_match_first. Qed.

Lemma first_max_unique {A : Type} (sc : A -> Q) (pre1 post1 pre2 post2 : list A) (x1 x2 : A) :
  (pre1 ++ x1 :: post1)%list = (pre2 ++ x2 :: post2)%list ->
  (forall y, In y pre1 -> sc y < sc x1) -> (forall y, In y post1 -> sc y <= sc x1) ->
  (forall y, In y pre2 -> sc y < sc x2) -> (forall y, In y post2 -> sc y <= sc x2) ->
  pre1 = pre2 /\ x1 = x2.
Proof.
  revert pre2. induction pre1 as [|y1 pre1 IH]; intros pre2 Heq H1 H1' H2 H2';
    destruct pre2 as [|y2 pre2]; simpl in Heq.
  - injection Heq as -> _. split; reflexivity.
  - injection Heq as <- Hpost. exfalso.
    assert (Lt : sc x1 < sc x2) by (apply H2; left; reflexivity).
    assert (Le : sc x2 <= sc x1) by (apply H1'; rewrite Hpost; apply in_or_app; right; left; reflexivity).
    exact (Qlt_not_le _ _ Lt Le).
  - injection Heq as -> Hpost. exfalso.
    assert (Lt : sc x2 < sc x1) by (apply H1; left; reflexivity).
    assert (Le : sc x1 <= sc x2) by (apply H2'; rewrite <- Hpost; apply in_or_app; right; left; reflexivity).
    exact (Qlt_not_le _ _ Lt Le).
  - injection Heq as <- Heq.
    destruct (IH pre2 Heq) as [-> ->]; try assumption.
    + intros y Hy. apply H1. right. exact Hy.
    + intros y Hy. apply H2. right. exact Hy.
    + split; reflexivity.
Qed.

Lemma find_best_match_scored (py_repr : pyval -> string)
  (token_set_ratio : string -> string -> Q) (json_loads : string -> option pyval)
  (scraped_product : row) (products : list row) (threshold : Q) (best : row) :
  find_best_match py_repr token_set_ratio json_loads scraped_product (inr products) threshold
    = Some best ->
  forall p, In p products ->
    exists s, calculate_similarity_score py_repr token_set_ratio json_loads scraped_product p = inr s.
Proof.
  unfold find_best_match, find_best_match_body. cbv [bind].
  destruct (collect_matches py_repr token_set_ratio json_loads scraped_product products threshold)
    as [e|ms] eqn:Hms; [discriminate|].
  intros _. exact (proj1 (collect_matches_ok _ _ _ _ _ _ _ Hms)).
Qed.

(** X2: lowering the threshold never changes a found match: if
    [find_best_match] returns a row for threshold [t], it returns the same
    row for every threshold [t' <= t]. *)
Theorem find_best_match_lower_threshold (py_repr : pyval -> string)
  (token_set_ratio : string -> string -> Q) (json_loads : string -> option pyval)
  (scraped_product : row) (products : list row) (threshold threshold' : Q) (best : row) :
  threshold' <= threshold ->
  find_best_match py_repr token_set_ratio json_loads scraped_product (inr products) threshold
    = Some best ->
  find_best_match py_repr token_set_ratio json_loads scraped_product (inr products) threshold'
    = Some best.
Proof.
  intros Hth H.
  set (score := calculate_similarity_score py_repr token_set_ratio json_loads scraped_product).
  pose proof (find_best_match_scored _ _ _ _ _ _ _ H) as Hall.
  destruct (find_best_match_first _ _ _ _ _ _ _ H)
    as [pre [p [post [s [Hprod [Hs [Ht [Hb [Hpre Hpost]]]]]]]]].
  destruct (collect_matches_total py_repr token_set_ratio json_loads scraped_product
              products threshold' Hall) as [ms Hms].
  assert (Hin : In (p, s) ms).
  { destruct (collect_matches_ok _ _ _ _ _ _ _ Hms) as [_ [_ C]]. apply C; [|exact Hs|].
    - rewrite Hprod. apply in_or_app. right. left. reflexivity.
    - apply Qle_trans with threshold; assumption. }
  destruct (find_best_match py_repr token_set_ratio json_loads scraped_product
              (inr products) threshold') as [best'|] eqn:H'.
  2:{ exfalso. revert H'. unfold find_best_match, find_best_match_body. cbv [bind].
      rewrite Hms. destruct (sort_desc_props ms) as [_ Hsort].
      apply Hsort in Hin. destruct (sort_desc ms) as [|[? ?] ?]; [contradiction|discriminate]. }
  destruct (find_best_match_first _ _ _ _ _ _ _ H')
    as [pre' [p' [post' [s' [Hprod' [Hs' [Ht' [Hb' [Hpre' Hpost']]]]]]]]].
  set (sc := fun q => match score q with inr x => x | inl _ => 0 end).
  assert (Hsc : forall q, In q products -> score q = inr (sc q)).
  { intros q Hq. destruct (Hall q Hq) as [x Hx]. unfold sc. fold score in Hx. rewrite Hx. reflexivity. }
  assert (Es : sc p = s) by (unfold sc; fold score in Hs; rewrite Hs; reflexivity).
  assert (Es' : sc p' = s') by (unfold sc; fold score in Hs'; rewrite Hs'; reflexivity).
  assert (Inpre : forall q, In q pre -> In q products)
    by (intros q Hq; rewrite Hprod; apply in_or_app; left; exact Hq).
  assert (Inpost : forall q, In q post -> In q products)
    by (intros q Hq; rewrite Hprod; apply in_or_app; right; right; exact Hq).
  assert (Inpre' : forall q, In q pre' -> In q products)
    by (intros q Hq; rewrite Hprod'; apply in_or_app; left; exact Hq).
  assert (Inpost' : forall q, In q post' -> In q products)
    by (intros q Hq; rewrite Hprod'; apply in_or_app; right; right; exact Hq).
  destruct (first_max_unique sc pre post pre' post' p p') as [_ <-].
  - rewrite <- Hprod, <- Hprod'. reflexivity.
  - intros y Hy. rewrite Es. exact (Hpre y _ Hy (Hsc y (Inpre y Hy))).
  - intros y Hy. rewrite Es. exact (Hpost y _ Hy (Hsc y (Inpost y Hy))).
  - intros y Hy. rewrite Es'. exact (Hpre' y _ Hy (Hsc y (Inpre' y Hy))).
  - intros y Hy. rewrite Es'. exact (Hpost' y _ Hy (Hsc y (Inpost' y Hy))).
  - unfold score in *. rewrite Hb, Hb'.
    assert (E : (inr s : M Q) = inr s') by congruence. injection E as <-. reflexivity.
Qed.

Lemma find_best_match_lower_threshold_witness :
  (exists s1 s4,
     calculate_similarity_score (fun _ => "") exact_match_ratio c1_json_loads
       fault_scraped (nth 0 tie_catalog []) = inr s1 /\ 65 <= s1 < 70
     /\ calculate_similarity_score (fun _ => "") exact_match_ratio c1_json_loads
          fault_scraped (nth 3 tie_catalog []) = inr s4 /\ 65 <= s4 < 70)
  /\ (65 <= 70)
  /\ exists best,
    find_best_match (fun _ => "") exact_match_ratio c1_json_loads fault_scraped
      (inr tie_catalog) 70 = Some best
    /\ find_best_match (fun _ => "") exact_match_ratio c1_json_loads fault_scraped
      (inr tie_catalog) 65 = Some best.
Proof.
  assert (Hth : 65 <= 70) by (unfold Qle; simpl; lia).
  split; [|split; [exact Hth|]].
  - do 2 eexists. split; [vm_compute; reflexivity|].
    split; [split; [apply Qle_bool_iff | apply Qlt_bool_iff]; vm_compute; reflexivity|].
    split; [vm_compute; reflexivity|].
    split; [apply Qle_bool_iff | apply Qlt_bool_iff]; vm_compute; reflexivity.
  - destruct (find_best_match (fun _ => "") exact_match_ratio c1_json_loads fault_scraped
                (inr tie_catalog) 70) as [best|] eqn:E.
    + exists best. split; [reflexivity|].
      exact (find_best_match_lower_threshold _ _ _ _ _ 70 65 best Hth E).
    + vm_compute in E. discriminate.
Defined.

Lemma calculate_spec_similarity_no_raise (py_repr : pyval -> string)
  (token_set_ratio : string -> string -> Q) (scraped_specs db_specs : pyval) :
  (truthy scraped_specs = false \/ exists d, scraped_specs = PDict d) ->
  (truthy db_specs = false \/ exists d, db_specs = PDict d) ->
  exists x, calculate_spec_similarity py_repr token_set_ratio scraped_specs db_specs = inr x.
Proof.
  intros Hs Hd. unfold calculate_spec_similarity.
  destruct Hs as [Hs | [d Hs]]; [rewrite Hs; eexists; reflexivity|].
  destruct Hd as [Hd | [d' Hd]]; [rewrite Hd, orb_true_r; eexists; reflexivity|].
  subst. destruct (negb (truthy (PDict d)) || negb (truthy (PDict d'))); [eexists; reflexivity|].
  cbv [bind dict_items ret]. rewrite match_scores_of_dict. eexists. reflexivity.
Qed.

(** X3: [calculate_similarity_score] returns a score (raises nothing) when
    both products have a ["name"], the scraped specs are falsy or a dict,
    and the catalog specs are falsy or a JSON string that decodes to a
    falsy value or an object. *)
Theorem calculate_similarity_score_no_raise (py_repr : pyval -> string)
  (token_set_ratio : string -> string -> Q) (json_loads : string -> option pyval)
  (scraped_product db_product : row) :
  (exists n, dict_lookup scraped_product "name" = Some n) ->
  (exists n, dict_lookup db_product "name" = Some n) ->
  (truthy (dict_get scraped_product "specs" (PDict [])) = false
   \/ exists d, dict_get scraped_product "specs" (PDict []) = PDict d) ->
  (truthy (dict_get db_product "specs" PNone) = false
   \/ exists s j, dict_lookup db_product "specs" = Some (PStr s) /\ json_loads s = Some j
        /\ (truthy j = false \/ exists d, j = PDict d)) ->
  exists x, calculate_similarity_score py_repr token_set_ratio json_loads scraped_product db_product
            = inr x.
Proof.
  intros [n Hn] [n' Hn'] Hs Hd. unfold calculate_similarity_score, dict_getitem.
  rewrite Hn, Hn'. cbv [bind ret].
  assert (Hdb : exists j, (if truthy (dict_get db_product "specs" PNone)
                          then py_json_loads json_loads (dict_get db_product "specs" (PStr "{}"))
                          else inr (PDict [])) = inr j
                /\ (truthy j = false \/ exists d, j = PDict d)).
  { destruct Hd as [Hd | [s [j [Hl [Hj Hjd]]]]].
    - rewrite Hd. exists (PDict []). split; [reflexivity|]. left. reflexivity.
    - unfold dict_get. rewrite Hl. destruct (truthy (PStr s)).
      + exists j. split; [|exact Hjd]. simpl. rewrite Hj. reflexivity.
      + exists (PDict []). split; [reflexivity|]. left. reflexivity. }
  destruct Hdb as [j [Hj Hjd]]. rewrite Hj.
  destruct (calculate_spec_similarity_no_raise py_repr token_set_ratio _ _ Hs Hjd) as [x Hx].
  rewrite Hx.
  destruct (calculate_price_similarity_finite py_repr (dict_get scraped_product "price" PNone)
              (dict_get db_product "price" PNone)) as [ps [Hps _]].
  rewrite Hps. eexists. reflexivity.
Qed.

Lemma calculate_similarity_score_no_raise_witness :
  exists x, calculate_similarity_score (fun _ => "") c1_token_set_ratio c1_json_loads
              c1_scraped c1_good_row = inr x.
Proof.
  apply calculate_similarity_score_no_raise.
  - eexists. reflexivity.
  - eexists. reflexivity.
  - right. eexists. reflexivity.
  - left. reflexivity.
Defined.

(** X4: the exceptions of [calculate_similarity_score]: [KeyError] when a
    product has no ["name"]; [TypeError] when the catalog specs are truthy
    but not a string; [JSONDecodeError] when they are a non-empty string
    that does not decode; [AttributeError] when the decoded specs and the
    scraped specs are both truthy and one of them is not a dict. *)
Theorem calculate_similarity_score_raises (py_repr : pyval -> string)
  (token_set_ratio : string -> string -> Q) (json_loads : string -> option pyval)
  (scraped_product db_product : row) :
  let result := calculate_similarity_score py_repr token_set_ratio json_loads
                  scraped_product db_product in
  ((dict_lookup scraped_product "name" = None \/ dict_lookup db_product "name" = None) ->
   result = inl KeyError)
  /\ (forall n n' v, dict_lookup scraped_product "name" = Some n ->
        dict_lookup db_product "name" = Some n' ->
        dict_lookup db_product "specs" = Some v -> truthy v = true ->
        (forall s, v <> PStr s) -> result = inl TypeError)
  /\ (forall n n' s, dict_lookup scraped_product "name" = Some n ->
        dict_lookup db_product "name" = Some n' ->
        dict_lookup db_product "specs" = Some (PStr s) -> s <> "" ->
        json_loads s = None -> result = inl JSONDecodeError)
  /\ (forall n n' s j, dict_lookup scraped_product "name" = Some n ->
        dict_lookup db_product "name" = Some n' ->
        dict_lookup db_product "specs" = Some (PStr s) -> s <> "" -> json_loads s = Some j ->
        truthy j = true -> truthy (dict_get scraped_product "specs" (PDict [])) = true ->
        ((forall d, j <> PDict d) \/ (forall d, dict_get scraped_product "specs" (PDict []) <> PDict d)) ->
        result = inl AttributeError).
Proof.
  intros result. subst result. unfold calculate_similarity_score, dict_getitem. split; [|split; [|split]].
  - intros [H|H]; rewrite H; [reflexivity|].
    destruct (dict_lookup scraped_product "name"); reflexivity.
  - intros n n' v Hn Hn' Hv Ht Hns. rewrite Hn, Hn'. cbv [bind ret].
    unfold dict_get. rewrite Hv, Ht.
    destruct v; try reflexivity. exfalso. exact (Hns s eq_refl).
  - intros n n' s Hn Hn' Hs Hne Hj. rewrite Hn, Hn'. cbv [bind ret].
    unfold dict_get. rewrite Hs.
    assert (truthy (PStr s) = true) as ->.
    { simpl. destruct (String.eqb_spec s ""); [contradiction|reflexivity]. }
    simpl. rewrite Hj. reflexivity.
  - intros n n' s j Hn Hn' Hs Hne Hj Htj Hts Hnd. rewrite Hn, Hn'. cbv [bind ret].
    assert (Hts' : truthy (PStr s) = true).
    { simpl. destruct (String.eqb_spec s ""); [contradiction|reflexivity]. }
    assert (E1 : dict_get db_product "specs" PNone = PStr s) by (unfold dict_get; rewrite Hs; reflexivity).
    assert (E2 : dict_get db_product "specs" (PStr "{}") = PStr s) by (unfold dict_get; rewrite Hs; reflexivity).
    rewrite E1, Hts', E2. cbv [py_json_loads]. rewrite Hj. cbv [ret]. cbv beta iota.
    unfold calculate_spec_similarity. rewrite Hts, Htj. simpl negb. simpl orb.
    destruct Hnd as [Hnd | Hnd].
    + destruct (dict_get scraped_product "specs" (PDict [])) as [| | | | | |d] eqn:Es; try reflexivity.
      cbv [bind dict_items ret]. destruct d as [|[k v] d].
      * discriminate.
      * simpl. destruct j; try reflexivity. exfalso. exact (Hnd d0 eq_refl).
    + destruct (dict_get scraped_product "specs" (PDict [])) as [| | | | | |d] eqn:Es; try reflexivity.
      exfalso. exact (Hnd d eq_refl).
Qed.

Lemma first_rule_loop_spec (re_search : string -> string -> option (list string))
  (spec_patterns : list (string * string)) (description : string) :
  (forall pattern key groups, In (pattern, key) spec_patterns ->
     re_search pattern description = Some groups -> groups <> []) ->
  (first_rule_loop re_search [] spec_patterns description = inr []
   /\ forall pattern key, In (pattern, key) spec_patterns -> re_search pattern description = None)
  \/ exists pre pattern key post g gs,
       spec_patterns = (pre ++ (pattern, key) :: post)%list
       /\ (forall p k, In (p, k) pre -> re_search p description = None)
       /\ re_search pattern description = Some (g :: gs)
       /\ first_rule_loop re_search [] spec_patterns description = inr [(key, PStr g)].
Proof.
  induction spec_patterns as [|[pattern key] rest IH]; intros Hg.
  - left. split; [reflexivity|intros p k []].
  - simpl. destruct (re_search pattern description) as [groups|] eqn:Hre.
    + right. destruct groups as [|g gs].
      { exfalso. exact (Hg pattern key [] (or_introl eq_refl) Hre eq_refl). }
      exists [], pattern, key, rest, g, gs. split; [reflexivity|]. split; [intros p k []|].
      split; [exact Hre|reflexivity].
    + destruct IH as [[H1 H2] | [pre [p [k [post [g [gs [E [Hpre [Hre' Hr]]]]]]]]]].
      * intros p k gr Hp. apply (Hg p k gr). right. exact Hp.
      * left. split; [exact H1|]. intros p k [Heq | Hp]; [injection Heq as <- _; exact Hre|].
        apply H2 with k. exact Hp.
      * right. exists ((pattern, key) :: pre), p, k, post, g, gs.
        split; [rewrite E; reflexivity|]. split; [|split; [exact Hre'|exact Hr]].
        intros p' k' [Heq | Hp']; [injection Heq as <- _; exact Hre|]. apply Hpre with k'. exact Hp'.
Qed.

Lemma laptops_patterns_have_groups :
  forall pattern key, In (pattern, key) (laptops_spec_patterns ++ laptops_english_patterns)%list ->
    (1 <= count_groups pattern)%nat.
Proof.
  intros pattern key H.
  assert (A : forallb (fun '(p, _) => Nat.leb 1 (count_groups p))
                (laptops_spec_patterns ++ laptops_english_patterns)%list = true)
    by reflexivity.
  rewrite forallb_forall in A. apply Nat.leb_le. exact (A _ H).
Qed.

(** X10: [extract_specifications] of [src/laptops.py] returns at most one
    entry: the key and first group of the first Arabic rule that matches
    the description, or, when no Arabic rule matches, of the first English
    rule that matches, or no entry when no rule matches (assuming
    [re.search] returns as many groups as the pattern has). *)
Theorem extract_specifications_laptops_first_rule
  (re_search : string -> string -> option (list string)) :
  (forall pattern text groups, re_search pattern text = Some groups ->
     length groups = count_groups pattern) ->
  forall description,
  exists specs, extract_specifications_laptops re_search description = inr specs
  /\ ((specs = []
       /\ forall pattern key, In (pattern, key) (laptops_spec_patterns ++ laptops_english_patterns)%list ->
            re_search pattern description = None)
      \/ exists pre pattern key post g gs,
           (laptops_spec_patterns = (pre ++ (pattern, key) :: post)%list
            \/ ((forall p k, In (p, k) laptops_spec_patterns -> re_search p description = None)
                /\ laptops_english_patterns = (pre ++ (pattern, key) :: post)%list))
           /\ (forall p k, In (p, k) pre -> re_search p description = None)
           /\ re_search pattern description = Some (g :: gs)
           /\ specs = [(key, PStr g)]).
Proof.
  intros Hgroups description.
  assert (Hg : forall rules, (forall p k, In (p, k) rules ->
                 In (p, k) (laptops_spec_patterns ++ laptops_english_patterns)%list) ->
               forall pattern key groups, In (pattern, key) rules ->
                 re_search pattern description = Some groups -> groups <> []).
  { intros rules Hsub pattern key groups Hp Hre ->.
    pose proof (Hgroups _ _ _ Hre) as L. pose proof (laptops_patterns_have_groups _ _ (Hsub _ _ Hp)).
    simpl in L. lia. }
  unfold extract_specifications_laptops.
  destruct (first_rule_loop_spec re_search laptops_spec_patterns description)
    as [[Har Hnone] | [pre [pattern [key [post [g [gs [E [Hpre [Hre Hr]]]]]]]]]].
  - apply Hg. intros p k Hp. apply in_or_app. left. exact Hp.
  - rewrite Har. cbv [bind]. simpl negb. cbv iota.
    destruct (first_rule_loop_spec re_search laptops_english_patterns description)
      as [[Hen Hnone'] | [pre [pattern [key [post [g [gs [E [Hpre [Hre Hr]]]]]]]]]].
    + apply Hg. intros p k Hp. apply in_or_app. right. exact Hp.
    + exists []. split; [exact Hen|]. left. split; [reflexivity|].
      intros p k Hp. apply in_app_iff in Hp as [Hp|Hp]; [apply (Hnone p k Hp)|apply (Hnone' p k Hp)].
    + exists [(key, PStr g)]. split; [exact Hr|]. right.
      exists pre, pattern, key, post, g, gs. split; [right; split; [exact Hnone|exact E]|].
      split; [exact Hpre|]. split; [exact Hre|reflexivity].
  - rewrite Hr. cbv [bind]. simpl negb. cbv iota.
    exists [(key, PStr g)]. split; [reflexivity|]. right.
    exists pre, pattern, key, post, g, gs. split; [left; exact E|].
    split; [exact Hpre|]. split; [exact Hre|reflexivity].
Qed.


Section LaptopsDBProofs.
Variable json_dumps : pyval -> string.
Variable name_eq : pyval -> pyval -> bool.
Variable select_fails : list db_row -> pyval -> bool.
Variable insert_fails : list db_row -> db_row -> bool.

Let run := insert_laptops_to_db json_dumps name_eq select_fails insert_fails.
Let one := insert_laptop json_dumps name_eq select_fails insert_fails.

Lemma count_name_zero (table : list db_row) (name : pyval) :
  Nat.ltb 0 (count_name name_eq table name) = false ->
  forall r, In r table -> name_eq (db_name r) name = false.
Proof.
  unfold count_name. intros H r Hr. apply Nat.ltb_ge in H.
  destruct (name_eq (db_name r) name) eqn:E; [|reflexivity].
  assert (In r (filter (fun r => name_eq (db_name r) name) table)) by (apply filter_In; split; assumption).
  destruct (filter (fun r => name_eq (db_name r) name) table); [contradiction|simpl in H; lia].
Qed.


(** One laptop: the table is kept or grows by a row carrying the laptop's
    name, which no earlier row matches. *)
Lemma insert_laptop_cases (table table' : list db_row) (laptop : row) :
  one table laptop = inr table' ->
  exists name, dict_lookup laptop "name" = Some name
  /\ (table' = table
      \/ exists r, table' = (table ++ [r])%list /\ db_name r = name
           /\ forall r', In r' table -> name_eq (db_name r') name = false).
Proof.
  subst one. unfold insert_laptop, dict_getitem.
  destruct (dict_lookup laptop "name") as [name|]; [|discriminate]. cbv [bind ret].
  intros H. exists name. split; [reflexivity|].
  destruct (select_fails table name); [injection H as <-; left; reflexivity|].
  destruct (Nat.ltb 0 (count_name name_eq table name)) eqn:Ec.
  - injection H as <-. left. reflexivity.
  - destruct (dict_lookup laptop "price"); [|discriminate].
    destruct (dict_lookup laptop "link"); [|discriminate].
    destruct (dict_lookup laptop "specs"); [|discriminate].
    destruct (dict_lookup laptop "description"); [|discriminate].
    destruct (insert_fails _ _); injection H as <-; [left; reflexivity|].
    right. eexists. split; [reflexivity|]. split; [reflexivity|].
    exact (count_name_zero table name Ec).
Qed.

Lemma run_cons (table : list db_row) (laptop : row) (rest : list row) :
  run table (laptop :: rest) =
    match one table laptop with inl e => (table, Some e) | inr t => run t rest end.
Proof. reflexivity. Qed.

Lemma insert_laptops_to_db_app (table : list db_row) (pre post : list row) :
  run table (pre ++ post)%list =
    match run table pre with
    | (t, None) => run t post
    | r => r
    end.
Proof.
  subst run. revert table. induction pre as [|l pre IH]; intros table; [reflexivity|].
  simpl. destruct (insert_laptop json_dumps name_eq select_fails insert_fails table l);
    [reflexivity|].
  apply IH.
Qed.

Lemma run_append_only (table : list db_row) (laptops : list row) :
  exists added, fst (run table laptops) = (table ++ added)%list
  /\ forall r, In r added -> exists laptop, In laptop laptops /\ dict_lookup laptop "name" = Some (db_name r).
Proof.
  revert table. induction laptops as [|l rest IH]; intros table.
  - exists []. split; [symmetry; apply app_nil_r|intros r []].
  - rewrite run_cons. destruct (one table l) as [e|t] eqn:Hl.
    + exists []. split; [symmetry; apply app_nil_r|intros r []].
    + destruct (IH t) as [added [Ha Hr]].
      destruct (insert_laptop_cases table t l Hl) as [name [Hn [-> | [r [-> [Hrn _]]]]]].
      * exists added. split; [exact Ha|]. intros r' Hr'. destruct (Hr r' Hr') as [l' [Hl' Hn']].
        exists l'. split; [right; exact Hl'|exact Hn'].
      * exists (r :: added). split; [rewrite Ha, <- app_assoc; reflexivity|].
        intros r' [<- | Hr'].
        -- exists l. split; [left; reflexivity|]. rewrite Hrn. exact Hn.
        -- destruct (Hr r' Hr') as [l' [Hl' Hn']]. exists l'. split; [right; exact Hl'|exact Hn'].
Qed.

Lemma no_dup_names_snoc (table : list db_row) (r : db_row) :
  no_dup_names name_eq table ->
  (forall r', In r' table -> name_eq (db_name r') (db_name r) = false) ->
  no_dup_names name_eq (table ++ [r])%list.
Proof.
  intros Hnd Hr pre x post r' Heq Hin.
  destruct post as [|y post'] using rev_ind.
  - apply app_inj_tail in Heq as [<- <-]. apply Hr. exact Hin.
  - clear IHpost'. rewrite app_comm_cons, app_assoc in Heq. apply app_inj_tail in Heq as [Heq _].
    exact (Hnd pre x post' r' Heq Hin).
Qed.

(** X12: [insert_laptops_to_db] keeps the [laptops] table free of
    duplicate names: if no row's name equals an earlier row's name before
    the call, the same holds after it. *)
Theorem insert_laptops_to_db_unique_names (table : list db_row) (laptops : list row) :
  no_dup_names name_eq table -> no_dup_names name_eq (fst (run table laptops)).
Proof.
  revert table. induction laptops as [|l rest IH]; intros table Hnd; [exact Hnd|].
  rewrite run_cons. destruct (one table l) as [e|t] eqn:Hl; [exact Hnd|]. apply IH.
  destruct (insert_laptop_cases table t l Hl) as [name [_ [-> | [r [-> [Hrn Hfresh]]]]]];
    [exact Hnd|].
  apply no_dup_names_snoc; [exact Hnd|]. rewrite Hrn. exact Hfresh.
Qed.

Section Reliable.
Hypothesis name_eq_refl : forall n, name_eq n n = true.
Hypothesis select_ok : forall table n, select_fails table n = false.
Hypothesis insert_ok : forall table r, insert_fails table r = false.



End Reliable.
End LaptopsDBProofs.




(** X15: a laptop without a ["name"] key stops [insert_laptops_to_db]
    with a [KeyError]: the rows of the laptops before it stay in the table,
    and no laptop after it is inserted. *)
Theorem insert_laptops_to_db_key_error (json_dumps : pyval -> string)
  (name_eq : pyval -> pyval -> bool) (select_fails : list db_row -> pyval -> bool)
  (insert_fails : list db_row -> db_row -> bool)
  (table table' : list db_row) (pre post : list row) (laptop : row) :
  insert_laptops_to_db json_dumps name_eq select_fails insert_fails table pre = (table', None) ->
  dict_lookup laptop "name" = None ->
  insert_laptops_to_db json_dumps name_eq select_fails insert_fails table (pre ++ laptop :: post)%list
    = (table', Some KeyError).
Proof.
  intros Hpre Hn. rewrite insert_laptops_to_db_app, Hpre. simpl.
  unfold insert_laptop, dict_getitem. rewrite Hn. reflexivity.
Qed.

(** X11: [insert_laptops_to_db] only appends to the [laptops] table: the
    table afterwards is the table before followed by new rows, and each new
    row's name is the ["name"] of some laptop of the list. *)
Theorem insert_laptops_to_db_append_only (json_dumps : pyval -> string)
  (name_eq : pyval -> pyval -> bool) (select_fails : list db_row -> pyval -> bool)
  (insert_fails : list db_row -> db_row -> bool)
  (table : list db_row) (laptops : list row) :
  exists added,
    fst (insert_laptops_to_db json_dumps name_eq select_fails insert_fails table laptops) = (table ++ added)%list
    /\ forall r, In r added ->
         exists laptop, In laptop laptops /\ dict_lookup laptop "name" = Some (db_name r).
Proof. apply run_append_only. Qed.

Lemma no_dup_names_nil (name_eq : pyval -> pyval -> bool) : no_dup_names name_eq [].
Proof. intros pre r post r' H. destruct pre; discriminate. Qed.


Lemma insert_laptops_to_db_unique_names_witness :
  no_dup_names text_name_eq []
  /\ no_dup_names text_name_eq
       (fst (insert_laptops_to_db dumps_stub text_name_eq select_never_fails never_fails []
               [sample_laptop; sample_laptop])).
Proof.
  split; [apply no_dup_names_nil|].
  apply insert_laptops_to_db_unique_names. apply no_dup_names_nil.
Defined.



Lemma insert_laptops_to_db_key_error_witness :
  exists table',
    insert_laptops_to_db dumps_stub text_name_eq select_never_fails never_fails [] [sample_laptop]
      = (table', None)
    /\ dict_lookup sample_laptop_no_name "name" = None
    /\ insert_laptops_to_db dumps_stub text_name_eq select_never_fails never_fails []
         [sample_laptop; sample_laptop_no_name; sample_laptop] = (table', Some KeyError).
Proof.
  destruct (insert_laptops_to_db dumps_stub text_name_eq select_never_fails never_fails [] [sample_laptop])
    as [table' o] eqn:E.
  destruct o as [e|]; [vm_compute in E; discriminate|].
  exists table'. split; [reflexivity|]. split; [reflexivity|].
  exact (insert_laptops_to_db_key_error dumps_stub text_name_eq select_never_fails never_fails [] table'
           [sample_laptop] [sample_laptop] sample_laptop_no_name E eq_refl).
Defined.

Lemma find_best_match_first_best_witness :
  (exists s, calculate_similarity_score (fun _ => "") exact_match_ratio c1_json_loads
               fault_scraped (nth 1 tie_catalog []) = inr s
     /\ calculate_similarity_score (fun _ => "") exact_match_ratio c1_json_loads
          fault_scraped (nth 2 tie_catalog []) = inr s
     /\ find_best_match (fun _ => "") exact_match_ratio c1_json_loads fault_scraped
          (inr tie_catalog) 65
        = Some (dict_setitem (nth 1 tie_catalog []) "similarity_score" (PFloat (Fin s))))
  /\ exists best,
    find_best_match (fun _ => "") exact_match_ratio c1_json_loads fault_scraped
      (inr tie_catalog) 65 = Some best
    /\ exists pre p post s,
      tie_catalog = (pre ++ p :: post)%list
      /\ calculate_similarity_score (fun _ => "") exact_match_ratio c1_json_loads fault_scraped p
         = inr s
      /\ 65 <= s
      /\ best = dict_setitem p "similarity_score" (PFloat (Fin s))
      /\ (forall p' s', In p' pre ->
            calculate_similarity_score (fun _ => "") exact_match_ratio c1_json_loads
              fault_scraped p' = inr s' -> s' < s)
      /\ (forall p' s', In p' post ->
            calculate_similarity_score (fun _ => "") exact_match_ratio c1_json_loads
              fault_scraped p' = inr s' -> s' <= s).
Proof.
  split.
  - eexists. split; [vm_compute; reflexivity|]. split; vm_compute; reflexivity.
  - destruct (find_best_match (fun _ => "") exact_match_ratio c1_json_loads fault_scraped
                (inr tie_catalog) 65) as [best|] eqn:E.
    + exists best. split; [reflexivity|].
      exact (find_best_match_first_best _ _ _ _ _ _ _ E).
    + vm_compute in E. discriminate.
Defined.

Lemma extract_specifications_laptops_first_rule_witness :
  (forall pattern text groups, sample_re_search pattern text = Some groups ->
     length groups = count_groups pattern)
  /\ extract_specifications_laptops sample_re_search "Dell XPS 13, 16 GB RAM"
     = inr [("RAM", PStr "16")].
Proof.
  assert (H : forall pattern text groups, sample_re_search pattern text = Some groups ->
            length groups = count_groups pattern).
  { intros pattern text groups. unfold sample_re_search.
    destruct (String.eqb_spec pattern "(\d+)\s*GB\s*RAM") as [->|_]; [|discriminate].
    intros E. injection E as <-. reflexivity. }
  split; [exact H|].
  destruct (extract_specifications_laptops_first_rule sample_re_search H "Dell XPS 13, 16 GB RAM")
    as [specs [E _]].
  rewrite E. vm_compute in E. symmetry. exact E.
Defined.
